(** * Database: connection manager with master-replica support

    A shallow embedding of [original_database.py] (class [Database]) and the
    properties of its routing, fallback and pool life cycle.

    The manager object is a record; its methods are computations in a small
    state-and-exception monad over the pair (manager, world).  The world is
    the part of the database client library the manager talks to: it hands
    out engines (pools), answers liveness queries and disposes pools.  What
    the library answers is not decided by the manager, so it is read from an
    environment of oracles; every call to the library is recorded in a
    trace.  A Python exception keeps the assignments made before it was
    raised, so a failed computation still returns the state it reached. *)

From stdpp Require Import base strings gmap list pretty.
From Stdlib Require Import ZArith Lia.

Local Open Scope string_scope.

(** ** Python values held by the configuration dictionaries *)

Module Py.

(** The values a [Dict[str, Any]] of connection parameters holds. *)
Inductive value : Type :=
| VNone
| VBool (b : bool)
| VInt (z : Z)
| VStr (s : string).

(** Truth value testing, as [bool(v)] and [all(...)] use it. *)
Definition truthy (v : value) : bool :=
  match v with
  | VNone => false
  | VBool b => b
  | VInt z => negb (Z.eqb z 0)
  | VStr s => negb (String.eqb s "")
  end.

(** [format(v, "")], what an f-string field [{v}] inserts. *)
Definition str (v : value) : string :=
  match v with
  | VNone => "None"
  | VBool true => "True"
  | VBool false => "False"
  | VInt z => pretty z
  | VStr s => s
  end.

(** [all(d.values())]: every value of the dictionary is truthy; true for
    the empty dictionary. *)
Definition all_values (d : gmap string value) : bool :=
  forallb truthy (map_to_list d).*2.

End Py.

(** ** The client library: engines, session makers, sessions *)

(** The keyword arguments [create_async_engine] is called with. *)
Record PoolOptions : Type := {
  opt_pool_size : Z;
  opt_max_overflow : Z;
  opt_pool_timeout : Z;
  opt_pool_recycle : Z;
  opt_echo : bool
}.

(** An [AsyncEngine] object.  [eng_id] is the identity of the object: two
    engines made by two calls are different objects even for one URL. *)
Record AsyncEngine : Type := {
  eng_id : nat;
  eng_url : string;
  eng_options : PoolOptions
}.

(** An [async_sessionmaker(bind=..., class_=AsyncSession,
    expire_on_commit=...)]: it keeps the engine it was given. *)
Record async_sessionmaker : Type := {
  sm_bind : option AsyncEngine;
  sm_expire_on_commit : bool
}.

(** An [AsyncSession], as a session maker returns it when called. *)
Record AsyncSession : Type := {
  sess_bind : option AsyncEngine;
  sess_expire_on_commit : bool
}.

#[global] Instance PoolOptions_eq_dec : EqDecision PoolOptions.
Proof. solve_decision. Defined.
#[global] Instance AsyncEngine_eq_dec : EqDecision AsyncEngine.
Proof. solve_decision. Defined.
#[global] Instance async_sessionmaker_eq_dec : EqDecision async_sessionmaker.
Proof. solve_decision. Defined.
#[global] Instance AsyncSession_eq_dec : EqDecision AsyncSession.
Proof. solve_decision. Defined.

(** Exceptions the manager raises or lets through. *)
Inductive Exception : Type :=
| KeyError (key : string)
| RuntimeError (msg : string)
| TypeError (msg : string)
| AttributeError (msg : string)
| LibraryError (msg : string).

(** [str(e)], what [f"...{e}"] inserts for an exception. *)
Definition exn_str (e : Exception) : string :=
  match e with
  | KeyError k => "'" ++ k ++ "'"
  | RuntimeError m | TypeError m | AttributeError m | LibraryError m => m
  end.

Inductive LogLevel : Type := DEBUG | INFO | WARNING | ERROR.

(** What the outside sees of a run: the calls into the client library with
    their outcome ([true]: returned, [false]: raised) and the log lines. *)
Inductive Event : Type :=
| EvCreate (url : string) (e : option AsyncEngine)
| EvCheckout (e : AsyncEngine) (ok : bool)
| EvExecute (e : AsyncEngine) (query : string) (ok : bool)
| EvRelease (e : AsyncEngine)
| EvDispose (e : AsyncEngine) (ok : bool)
| EvLog (lvl : LogLevel) (msg : string).

(** The world outside the manager: the next fresh engine identity and the
    trace of events, most recent first. *)
Record World : Type := {
  next_id : nat;
  trace : list Event
}.

(** What the client library answers: for each call, [None] when it returns
    and [Some msg] when it raises an exception with that message.  The
    answer may depend on everything that happened before. *)
Record Env : Type := {
  env_create : World -> string -> option string;
  env_checkout : World -> AsyncEngine -> option string;
  env_execute : World -> AsyncEngine -> string -> option string;
  env_dispose : World -> AsyncEngine -> option string
}.

(** ** The manager object *)

Record Database : Type := {
  master_config : gmap string Py.value;
  replica_config : gmap string Py.value;
  pool_size : Z;
  max_overflow : Z;
  pool_timeout : Z;
  pool_recycle : Z;
  master_engine : option AsyncEngine;
  replica_engine : option AsyncEngine;
  write_session_factory : option async_sessionmaker;
  read_session_factory : option async_sessionmaker;
  _connected : bool
}.

(** [Database.__init__]; the four pool parameters default to 10, 20, 30
    and 3600. *)
Definition __init__ (master_config replica_config : gmap string Py.value)
    (pool_size max_overflow pool_timeout pool_recycle : Z) : Database :=
  {| master_config := master_config;
     replica_config := replica_config;
     pool_size := pool_size;
     max_overflow := max_overflow;
     pool_timeout := pool_timeout;
     pool_recycle := pool_recycle;
     master_engine := None;
     replica_engine := None;
     write_session_factory := None;
     read_session_factory := None;
     _connected := false |}.

Definition default_pool_size : Z := 10.
Definition default_max_overflow : Z := 20.
Definition default_pool_timeout : Z := 30.
Definition default_pool_recycle : Z := 3600.

(** [Database(master_config, replica_config)] with the defaults. *)
Definition new_Database (mc rc : gmap string Py.value) : Database :=
  __init__ mc rc default_pool_size default_max_overflow
    default_pool_timeout default_pool_recycle.

Definition set_master_engine (v : option AsyncEngine) (d : Database) : Database :=
  {| master_config := master_config d; replica_config := replica_config d;
     pool_size := pool_size d; max_overflow := max_overflow d;
     pool_timeout := pool_timeout d; pool_recycle := pool_recycle d;
     master_engine := v; replica_engine := replica_engine d;
     write_session_factory := write_session_factory d;
     read_session_factory := read_session_factory d;
     _connected := _connected d |}.

Definition set_replica_engine (v : option AsyncEngine) (d : Database) : Database :=
  {| master_config := master_config d; replica_config := replica_config d;
     pool_size := pool_size d; max_overflow := max_overflow d;
     pool_timeout := pool_timeout d; pool_recycle := pool_recycle d;
     master_engine := master_engine d; replica_engine := v;
     write_session_factory := write_session_factory d;
     read_session_factory := read_session_factory d;
     _connected := _connected d |}.

Definition set_write_session_factory (v : option async_sessionmaker) (d : Database) : Database :=
  {| master_config := master_config d; replica_config := replica_config d;
     pool_size := pool_size d; max_overflow := max_overflow d;
     pool_timeout := pool_timeout d; pool_recycle := pool_recycle d;
     master_engine := master_engine d; replica_engine := replica_engine d;
     write_session_factory := v;
     read_session_factory := read_session_factory d;
     _connected := _connected d |}.

Definition set_read_session_factory (v : option async_sessionmaker) (d : Database) : Database :=
  {| master_config := master_config d; replica_config := replica_config d;
     pool_size := pool_size d; max_overflow := max_overflow d;
     pool_timeout := pool_timeout d; pool_recycle := pool_recycle d;
     master_engine := master_engine d; replica_engine := replica_engine d;
     write_session_factory := write_session_factory d;
     read_session_factory := v;
     _connected := _connected d |}.

Definition set_connected (v : bool) (d : Database) : Database :=
  {| master_config := master_config d; replica_config := replica_config d;
     pool_size := pool_size d; max_overflow := max_overflow d;
     pool_timeout := pool_timeout d; pool_recycle := pool_recycle d;
     master_engine := master_engine d; replica_engine := replica_engine d;
     write_session_factory := write_session_factory d;
     read_session_factory := read_session_factory d;
     _connected := v |}.

(** ** The monad of methods: state and exceptions *)

(** The state a method runs in: the manager ([self]) and the world. *)
Definition St : Type := Database * World.

(** A result is a value or a raised exception; either way the state the
    computation reached is returned with it. *)
Inductive Result (A : Type) : Type :=
| Ok (a : A)
| Raise (e : Exception).
Arguments Ok {A} a.
Arguments Raise {A} e.

(** Sequencing of code that can raise but touches no state. *)
Definition and_then {A B} (r : Result A) (k : A -> Result B) : Result B :=
  match r with
  | Ok a => k a
  | Raise e => Raise e
  end.

Definition M (A : Type) : Type := St -> Result A * St.

Definition ret {A} (a : A) : M A := fun st => (Ok a, st).

Definition bind {A B} (m : M A) (k : A -> M B) : M B :=
  fun st =>
    match m st with
    | (Ok a, st') => k a st'
    | (Raise e, st') => (Raise e, st')
    end.

Definition raise {A} (e : Exception) : M A := fun st => (Raise e, st).

(** Running state-free code inside a method. *)
Definition lift {A} (r : Result A) : M A := fun st => (r, st).

(** [try: body  except Exception as e: handler(e)] *)
Definition try_except {A} (body : M A) (handler : Exception -> M A) : M A :=
  fun st =>
    match body st with
    | (Ok a, st') => (Ok a, st')
    | (Raise e, st') => handler e st'
    end.

(** Reading an attribute of [self], and assigning one. *)
Definition self {A} (field : Database -> A) : M A :=
  fun '(d, w) => (Ok (field d), (d, w)).

Definition assign (upd : Database -> Database) : M unit :=
  fun '(d, w) => (Ok tt, (upd d, w)).

(** Adding an event to the trace. *)
Definition emit (ev : Event) : M unit :=
  fun '(d, w) => (Ok tt, (d, {| next_id := next_id w; trace := ev :: trace w |})).

(** The methods are written with two notations: [let* x := m in k] runs
    [m], names its value [x] and goes on with [k]; [m >> k] runs [m] for
    its effect and goes on with [k]. *)
Declare Scope method_scope.
Delimit Scope method_scope with method.
Notation "'let*' x := m 'in' k" := (bind m (fun x => k))
  (at level 10, x name, m at level 100, k at level 200) : method_scope.
Notation "m >> k" := (bind m (fun _ => k))
  (at level 90, right associativity) : method_scope.
Notation "'let?' x := r 'in' k" := (and_then r (fun x => k))
  (at level 10, x name, r at level 100, k at level 200) : method_scope.
Local Open Scope method_scope.

(** ** Logging and the calls into the client library *)

Definition logger (lvl : LogLevel) (msg : string) : M unit := emit (EvLog lvl msg).

(** Asking the environment what the library does now. *)
Definition ask {A} (oracle : World -> A) : M A :=
  fun '(d, w) => (Ok (oracle w), (d, w)).

(** Taking the next fresh object identity. *)
Definition fresh_id : M nat :=
  fun '(d, w) => (Ok (next_id w),
                  (d, {| next_id := S (next_id w); trace := trace w |})).

(** [body] then [cleanup], also when [body] raised; the exception of
    [body], if any, goes on after the cleanup. *)
Definition finally {A} (body : M A) (cleanup : M unit) : M A :=
  fun st =>
    match body st with
    | (Ok a, st') => (cleanup >> ret a) st'
    | (Raise e, st') => (cleanup >> raise e) st'
    end.

Section Library.
Variable E : Env.

(** [create_async_engine(url, pool_size=..., ..., echo=...)] *)
Definition create_async_engine (url : string) (opts : PoolOptions) : M AsyncEngine :=
  let* r := ask (fun w => env_create E w url) in
  match r with
  | Some msg => emit (EvCreate url None) >> raise (LibraryError msg)
  | None =>
      let* i := fresh_id in
      let e := {| eng_id := i; eng_url := url; eng_options := opts |} in
      emit (EvCreate url (Some e)) >> ret e
  end.

(** [engine.connect()] entered by [async with]: a connection is checked
    out of the pool. *)
Definition engine_connect (e : AsyncEngine) : M unit :=
  let* r := ask (fun w => env_checkout E w e) in
  match r with
  | Some msg => emit (EvCheckout e false) >> raise (LibraryError msg)
  | None => emit (EvCheckout e true)
  end.

(** [await conn.execute(text(query))] on a connection of [e]. *)
Definition conn_execute (e : AsyncEngine) (query : string) : M unit :=
  let* r := ask (fun w => env_execute E w e query) in
  match r with
  | Some msg => emit (EvExecute e query false) >> raise (LibraryError msg)
  | None => emit (EvExecute e query true)
  end.

(** [async with engine.connect() as conn: body]: the connection goes back
    to the pool on every way out of the body. *)
Definition async_with_connect {A} (e : AsyncEngine) (body : M A) : M A :=
  engine_connect e >> finally body (emit (EvRelease e)).

(** [await engine.dispose()] *)
Definition engine_dispose (e : AsyncEngine) : M unit :=
  let* r := ask (fun w => env_dispose E w e) in
  match r with
  | Some msg => emit (EvDispose e false) >> raise (LibraryError msg)
  | None => emit (EvDispose e true)
  end.

End Library.

(** [async_sessionmaker(bind=engine, class_=AsyncSession,
    expire_on_commit=False)] *)
Definition make_sessionmaker (engine : option AsyncEngine) : async_sessionmaker :=
  {| sm_bind := engine; sm_expire_on_commit := false |}.

(** Calling a session maker: [factory()]. *)
Definition call_sessionmaker (f : async_sessionmaker) : AsyncSession :=
  {| sess_bind := sm_bind f; sess_expire_on_commit := sm_expire_on_commit f |}.

(** Calling an attribute that may still be [None]. *)
Definition call_factory (f : option async_sessionmaker) : Result AsyncSession :=
  match f with
  | Some sm => Ok (call_sessionmaker sm)
  | None => Raise (TypeError "'NoneType' object is not callable")
  end.

(** ** The methods of [Database] *)

(** [bool(x)] of an attribute that is [None] or an object. *)
Definition is_set {A} (x : option A) : bool :=
  match x with Some _ => true | None => false end.

(** [config[key]] *)
Definition getitem (config : gmap string Py.value) (key : string) : Result Py.value :=
  match config !! key with
  | Some v => Ok v
  | None => Raise (KeyError key)
  end.

(** [_build_connection_string]: the fields are read in the order the
    f-string names them. *)
Definition _build_connection_string (config : gmap string Py.value) : Result string :=
  let? username := getitem config "username" in
  let? password := getitem config "password" in
  let? host := getitem config "host" in
  let? port := getitem config "port" in
  let? database := getitem config "database" in
  Ok ("postgresql+asyncpg://" ++ Py.str username ++ ":" ++ Py.str password
      ++ "@" ++ Py.str host ++ ":" ++ Py.str port ++ "/" ++ Py.str database).

Definition pool_options (d : Database) : PoolOptions :=
  {| opt_pool_size := pool_size d;
     opt_max_overflow := max_overflow d;
     opt_pool_timeout := pool_timeout d;
     opt_pool_recycle := pool_recycle d;
     opt_echo := false |}.

Section Methods.
Variable E : Env.

(** [_test_connections] *)
Definition _test_connections : M unit :=
  let* me := self master_engine in
  match me with
  | None => raise (AttributeError "'NoneType' object has no attribute 'connect'")
  | Some m =>
      async_with_connect E m
        (conn_execute E m "SELECT 1" >> logger DEBUG "Master OK")
  end >>
  let* re := self replica_engine in
  match re with
  | Some r =>
      try_except
        (async_with_connect E r
           (conn_execute E r "SELECT 1" >> logger DEBUG "Replica OK"))
        (fun _ =>
           logger WARNING "Replica failed, falling back to master" >>
           assign (set_replica_engine None))
  | None => ret tt
  end.

(** [connect] *)
Definition connect : M unit :=
  try_except
    (logger INFO "Connecting to databases..." >>
     (* ---------- MASTER ---------- *)
     let* mc := self master_config in
     let* master_url := lift (_build_connection_string mc) in
     let* opts := self pool_options in
     let* m := create_async_engine E master_url opts in
     assign (set_master_engine (Some m)) >>
     (* ---------- REPLICA ---------- *)
     let* rc := self replica_config in
     (if Py.all_values rc then
        try_except
          (let* replica_url := lift (_build_connection_string rc) in
           let* opts := self pool_options in
           let* r := create_async_engine E replica_url opts in
           assign (set_replica_engine (Some r)) >>
           logger INFO "Replica engine created")
          (fun e =>
             logger WARNING ("Replica unavailable: " ++ exn_str e) >>
             assign (set_replica_engine None))
      else
        logger INFO "Replica config missing; using master only") >>
     (* ---------- SESSION FACTORIES ---------- *)
     let* me := self master_engine in
     assign (set_write_session_factory (Some (make_sessionmaker me))) >>
     let* re := self replica_engine in
     let read_engine := if is_set re then re else me in
     assign (set_read_session_factory (Some (make_sessionmaker read_engine))) >>
     logger INFO ("Session factories created - Reads: "
                  ++ (if is_set re then "replica" else "master") ++ ", Writes: master") >>
     (* ---------- TEST CONNECTIONS ---------- *)
     _test_connections >>
     assign (set_connected true) >>
     logger INFO "Database connected successfully")
    (fun e =>
       logger ERROR ("Database connection failed: " ++ exn_str e) >>
       raise e).

(** [disconnect] *)
Definition disconnect : M unit :=
  logger INFO "Disconnecting databases..." >>
  let* me := self master_engine in
  (if me is Some m then engine_dispose E m else ret tt) >>
  let* re := self replica_engine in
  (if re is Some r then engine_dispose E r else ret tt) >>
  assign (set_connected false) >>
  logger INFO "Database disconnected".

End Methods.

(** The dictionary [health_check] returns. *)
Record HealthReport : Type := {
  status : string;
  master : bool;
  replica : bool
}.

(** [health_check] *)
Definition health_check (d : Database) : HealthReport :=
  {| status := if _connected d then "healthy" else "unhealthy";
     master := is_set (master_engine d);
     replica := is_set (replica_engine d) |}.

(** [get_session]; it reads the manager and changes nothing. *)
Definition get_session (d : Database) (operation_type : string) : Result AsyncSession :=
  if negb (_connected d) then Raise (RuntimeError "Database not connected")
  else if String.eqb operation_type "read" then call_factory (read_session_factory d)
  else call_factory (write_session_factory d).

(** [get_session()] with the default [operation_type="write"]. *)
Definition get_session_default (d : Database) : Result AsyncSession :=
  get_session d "write".

(** ** Vocabulary of the properties *)

(** The events a run added to the trace, most recent first: what [w']
    holds on top of [w]. *)
Definition new_events (w w' : World) : list Event :=
  take (length (trace w') - length (trace w)) (trace w').

(** [dispose()] was invoked on [e] among the events [evs], whatever its
    outcome. *)
Definition dispose_invoked (e : AsyncEngine) (evs : list Event) : bool :=
  existsb (fun ev => match ev with
                     | EvDispose e' _ => bool_decide (e' = e)
                     | _ => false
                     end) evs.

(** The engines (pools) the events [evs] opened. *)
Definition opened (evs : list Event) : list AsyncEngine :=
  omap (fun ev => match ev with EvCreate _ (Some e) => Some e | _ => None end) evs.

(** The liveness probe of [e] failed among the events [evs]: the checkout
    or the query raised. *)
Definition probe_failed (e : AsyncEngine) (evs : list Event) : bool :=
  existsb (fun ev => match ev with
                     | EvCheckout e' false => bool_decide (e' = e)
                     | EvExecute e' _ false => bool_decide (e' = e)
                     | _ => false
                     end) evs.

(** The keys [_build_connection_string] reads, in the order it reads them. *)
Definition required_fields : list string :=
  ["username"; "password"; "host"; "port"; "database"].

(** The first required key a configuration lacks. *)
Definition first_missing (config : gmap string Py.value) : option string :=
  List.find (fun k => negb (is_set (config !! k))) required_fields.

(** Every required field is present and not empty. *)
Definition config_valid (config : gmap string Py.value) : bool :=
  forallb (fun k => match config !! k with
                    | Some v => Py.truthy v
                    | None => false
                    end) required_fields.


(** The library reaches the backend behind [url]: engines for it are
    created, and connections of such engines are checked out and answer
    queries. *)
Definition serves (E : Env) (url : string) : Prop :=
  (forall w, env_create E w url = None) /\
  (forall w e, eng_url e = url -> env_checkout E w e = None) /\
  (forall w e q, eng_url e = url -> env_execute E w e q = None).

(** The states a manager can be in: made by the constructor in any world,
    then changed by [connect], [disconnect] and the liveness probe, however
    they end.  ([get_session] and [health_check] are functions of the
    manager and change nothing.) *)
Inductive reachable (E : Env) : St -> Prop :=
| reach_init mc rc ps mo pt pr w :
    reachable E (__init__ mc rc ps mo pt pr, w)
| reach_connect st :
    reachable E st -> reachable E (connect E st).2
| reach_disconnect st :
    reachable E st -> reachable E (disconnect E st).2
| reach_test_connections st :
    reachable E st -> reachable E (_test_connections E st).2.

(** What every reachable state satisfies. *)
Record consistent (st : St) : Prop := {
  (** the engines the manager holds were handed out by the library *)
  cons_master_id : forall m, master_engine st.1 = Some m -> eng_id m < next_id st.2;
  cons_replica_id : forall r, replica_engine st.1 = Some r -> eng_id r < next_id st.2;
  (** the primary engine was opened on the primary's connection string *)
  cons_master_url : forall m, master_engine st.1 = Some m ->
    _build_connection_string (master_config st.1) = Ok (eng_url m);
  (** primary and replica are two objects *)
  cons_distinct : forall m r, master_engine st.1 = Some m ->
    replica_engine st.1 = Some r -> eng_id m <> eng_id r;
  (** the write factory, once made, is bound to the primary engine *)
  cons_write : forall f, write_session_factory st.1 = Some f ->
    is_set (master_engine st.1) = true /\ sm_bind f = master_engine st.1;
  (** a connected manager has both factories *)
  cons_connected : _connected st.1 = true ->
    is_set (write_session_factory st.1) = true /\
    is_set (read_session_factory st.1) = true;
  (** a replica engine is only held when every replica field is populated *)
  cons_replica_cfg : Py.all_values (replica_config st.1) = false ->
    replica_engine st.1 = None
}.

(** ** Concrete configurations and library behaviours *)

Module Scenario.

(** The configuration of the specification's scenarios. *)
Definition config (host : string) : gmap string Py.value :=
  {[ "host" := Py.VStr host; "port" := Py.VInt 5432;
     "username" := Py.VStr "a"; "password" := Py.VStr "b";
     "database" := Py.VStr "app" ]}.

Definition primary_cfg : gmap string Py.value := config "db1".
Definition replica_cfg : gmap string Py.value := config "db2".

Definition primary_url : string := "postgresql+asyncpg://a:b@db1:5432/app".
Definition replica_url : string := "postgresql+asyncpg://a:b@db2:5432/app".

(** A primary configuration whose password is present but empty. *)
Definition empty_password_config : gmap string Py.value :=
  <[ "password" := Py.VStr "" ]> primary_cfg.

(** A primary configuration without a host. *)
Definition no_host_config : gmap string Py.value :=
  delete "host" primary_cfg.

(** A replica configuration with every field present and empty. *)
Definition blank_config : gmap string Py.value :=
  {[ "host" := Py.VStr ""; "port" := Py.VNone;
     "username" := Py.VStr ""; "password" := Py.VStr "";
     "database" := Py.VStr "" ]}.

(** Every call into the library returns. *)
Definition all_up : Env :=
  {| env_create := fun _ _ => None;
     env_checkout := fun _ _ => None;
     env_execute := fun _ _ _ => None;
     env_dispose := fun _ _ => None |}.

(** No connection can be checked out of a pool for [url]. *)
Definition unreachable (url : string) : Env :=
  {| env_create := fun _ _ => None;
     env_checkout := fun _ e =>
       if String.eqb (eng_url e) url then Some "connection refused" else None;
     env_execute := fun _ _ _ => None;
     env_dispose := fun _ _ => None |}.

(** Disposing a pool for [url] raises. *)
Definition dispose_fails (url : string) : Env :=
  {| env_create := fun _ _ => None;
     env_checkout := fun _ _ => None;
     env_execute := fun _ _ _ => None;
     env_dispose := fun _ e =>
       if String.eqb (eng_url e) url then Some "cannot close connection" else None |}.

(** The world before anything happened. *)
Definition world0 : World := {| next_id := 0; trace := [] |}.

(** The engines the first two calls of [create_async_engine] hand out. *)
Definition engine (i : nat) (url : string) : AsyncEngine :=
  {| eng_id := i; eng_url := url;
     eng_options := {| opt_pool_size := 10; opt_max_overflow := 20;
                       opt_pool_timeout := 30; opt_pool_recycle := 3600;
                       opt_echo := false |} |}.

Definition primary_pool : AsyncEngine := engine 0 primary_url.
Definition replica_pool : AsyncEngine := engine 1 replica_url.

(** The state after [connect] when primary and replica are both up. *)
Definition both_up : St :=
  (connect all_up (new_Database primary_cfg replica_cfg, world0)).2.

End Scenario.

(** ** Vocabulary of the further properties *)

(** The engines a connection was checked out of, and the engines a
    connection was given back to, among the events [evs]. *)
Definition checked_out (evs : list Event) : list AsyncEngine :=
  omap (fun ev => match ev with EvCheckout e true => Some e | _ => None end) evs.

Definition released (evs : list Event) : list AsyncEngine :=
  omap (fun ev => match ev with EvRelease e => Some e | _ => None end) evs.

(** The pool of [e] was used among the events [evs]: a checkout was tried,
    a query was sent or a connection was given back. *)
Definition touched (e : AsyncEngine) (evs : list Event) : bool :=
  existsb (fun ev => match ev with
                     | EvCheckout e' _ | EvExecute e' _ _ | EvRelease e' =>
                         bool_decide (e' = e)
                     | _ => false
                     end) evs.

(** Two managers were constructed with the same arguments. *)
Definition same_settings (d d' : Database) : Prop :=
  master_config d' = master_config d /\
  replica_config d' = replica_config d /\
  pool_options d' = pool_options d.

(** The library cannot create an engine for [url]. *)
Definition create_fails (url : string) : Env :=
  {| env_create := fun _ u =>
       if String.eqb u url then Some "cannot load driver" else None;
     env_checkout := fun _ _ => None;
     env_execute := fun _ _ _ => None;
     env_dispose := fun _ _ => None |}.

(** * Properties *)

#[local] Set Warnings "-clear-no-such-hyp".

#[local] Arguments _build_connection_string : simpl never.
#[local] Arguments Py.all_values : simpl never.
#[local] Arguments _test_connections : simpl never.
#[local] Arguments String.append : simpl never.

(** ** Event lists *)

(** The event is a call of [dispose()]. *)
Definition dispose_invoked_by (ev : Event) : bool :=
  match ev with EvDispose _ _ => true | _ => false end.

(** Events that neither open nor dispose a pool. *)
Definition quiet (evs : list Event) : bool :=
  forallb (fun ev => match ev with
                     | EvDispose _ _ | EvCreate _ _ => false
                     | _ => true
                     end) evs.

Lemma new_events_app (w w' : World) (evs : list Event) :
  trace w' = (evs ++ trace w)%list -> new_events w w' = evs.
Proof.
  intros H. unfold new_events. rewrite H, length_app.
  replace (length evs + length (trace w) - length (trace w)) with (length evs) by lia.
  by rewrite take_app_length.
Qed.

Lemma dispose_invoked_app (e : AsyncEngine) (evs1 evs2 : list Event) :
  dispose_invoked e (evs1 ++ evs2) = dispose_invoked e evs1 || dispose_invoked e evs2.
Proof. apply existsb_app. Qed.

Lemma probe_failed_app (e : AsyncEngine) (evs1 evs2 : list Event) :
  probe_failed e (evs1 ++ evs2) = probe_failed e evs1 || probe_failed e evs2.
Proof. apply existsb_app. Qed.

Lemma opened_app (evs1 evs2 : list Event) :
  opened (evs1 ++ evs2) = (opened evs1 ++ opened evs2)%list.
Proof. apply omap_app. Qed.

Lemma quiet_cons (ev : Event) (evs : list Event) :
  quiet (ev :: evs) = true ->
  quiet evs = true /\ dispose_invoked_by ev = false /\ opened [ev] = [].
Proof. intros [Hev Hevs]%andb_prop. by destruct ev. Qed.

Lemma quiet_dispose_invoked (e : AsyncEngine) (evs : list Event) :
  quiet evs = true -> dispose_invoked e evs = false.
Proof.
  induction evs as [|ev evs IH]; [done|].
  intros (Hevs & Hev & _)%quiet_cons.
  change (ev :: evs) with ([ev] ++ evs)%list.
  rewrite dispose_invoked_app, (IH Hevs), orb_false_r. by destruct ev.
Qed.

Lemma quiet_opened (evs : list Event) : quiet evs = true -> opened evs = [].
Proof.
  induction evs as [|ev evs IH]; [done|].
  intros (Hevs & _ & Hev)%quiet_cons.
  change (ev :: evs) with ([ev] ++ evs)%list.
  by rewrite opened_app, Hev, (IH Hevs).
Qed.

(** ** Running the methods *)

(** The primitives of the monad and the calls into the library, unfolded
    so that a method applied to a state computes. *)
Ltac unfold_prims :=
  unfold async_with_connect, finally, engine_connect, conn_execute,
    engine_dispose, create_async_engine, try_except, logger, bind, ret,
    raise, lift, self, assign, emit, ask, fresh_id in *.

(** Case analysis on every answer of the library and every test. *)
Ltac run_paths := cbn in *; repeat (case_match; simplify_eq; cbn in *).

(** The events a trace holds in front of its oldest part: a list written
    out, or [front ++ evs ++ back] around the events [evs] of a call that
    was not unfolded. *)
Ltac prefix_of t :=
  lazymatch t with
  | ?e :: ?t' =>
      let r := prefix_of t' in
      lazymatch r with
      | (?front ++ ?rest)%list => constr:(((e :: front) ++ rest)%list)
      | _ => constr:(e :: r)
      end
  | (?l ++ ?t')%list => let r := prefix_of t' in constr:(([] ++ l ++ r)%list)
  | _ => constr:(@nil Event)
  end.

Ltac give_events :=
  lazymatch goal with
  | |- ex (fun evs => ?t = @?rhs evs /\ @?P evs) =>
      let p := prefix_of t in
      exists p; split; [cbn; rewrite <- ?app_assoc; reflexivity|]
  end.

(** Properties of an event list [front ++ evs ++ back] with [evs] quiet. *)
Ltac events_facts :=
  rewrite ?dispose_invoked_app, ?opened_app, ?probe_failed_app;
  repeat match goal with
    | Hq : quiet ?l = true |- _ =>
        first [ rewrite (quiet_dispose_invoked _ l Hq)
              | rewrite (quiet_opened l Hq) ]
    end.

(** [probe_failed] on a list that names the engine. *)
Ltac probe_failed_of e :=
  cbn; rewrite ?(bool_decide_eq_true_2 (e = e)) by reflexivity; cbn;
  rewrite ?orb_true_r; reflexivity.

(** How [_test_connections] ends: it opens and disposes nothing, it only
    ever clears [replica_engine], and it does so exactly when the probe of
    the replica failed. *)
Lemma test_connections_digest (E : Env) (d : Database) (w : World)
    (res : Result unit) (d' : Database) (w' : World) :
  _test_connections E (d, w) = (res, (d', w')) ->
  exists evs, trace w' = (evs ++ trace w)%list /\
    next_id w' = next_id w /\ quiet evs = true /\
    (forall e, res = Raise e -> d' = d) /\
    (res = Ok tt -> is_set (master_engine d) = true /\
       ((d' = d /\ forall x, probe_failed x evs = false) \/
        (exists r, replica_engine d = Some r /\ d' = set_replica_engine None d /\
           probe_failed r evs = true /\
           forall x, probe_failed x evs = true -> x = r))).
Proof.
  intros H. unfold _test_connections in H. unfold_prims. run_paths.
  all: give_events.
  all: repeat split; try done.
  all: first [ left; split; [reflexivity | intros x; reflexivity]
             | right; eexists; split; [eassumption|];
               split; [reflexivity|]; split;
               [ match goal with |- probe_failed ?r _ = _ => probe_failed_of r end
               | intros x; cbn; rewrite ?orb_false_r;
                 intros Hx; by apply bool_decide_eq_true_1 in Hx ] ].
Qed.

(** What [test_connections_digest] says of a call of [_test_connections]
    met on the way. *)
Ltac use_test_digest :=
  lazymatch goal with
  | H : _test_connections _ _ = (Ok ?a, _) |- _ =>
      destruct a;
      apply test_connections_digest in H as (evt & Ht & Hn & Hq & _ & Hok);
      destruct (Hok eq_refl) as [_ [[-> Hpf] | (rp & Hrp & -> & Hpf & Huniq)]];
      clear Hok
  | H : _test_connections _ _ = (Raise ?e, _) |- _ =>
      apply test_connections_digest in H as (evt & Ht & Hn & Hq & Hraise & _);
      rewrite (Hraise _ eq_refl) in *; clear Hraise
  | _ => idtac
  end.


Lemma connect_digest (E : Env) (d : Database) (w : World)
    (res : Result unit) (d' : Database) (w' : World) :
  connect E (d, w) = (res, (d', w')) ->
  exists evs, trace w' = (evs ++ trace w)%list /\
    (forall p, dispose_invoked p evs = false) /\
    master_config d' = master_config d /\
    replica_config d' = replica_config d /\
    (forall e, res = Raise e ->
       hd_error evs = Some (EvLog ERROR ("Database connection failed: " ++ exn_str e)) /\
       _connected d' = _connected d /\
       forall p, p ∈ opened evs -> master_engine d' = Some p \/ replica_engine d' = Some p).
Proof.
  intros H. unfold connect in H. unfold_prims. 
  run_paths.
  all: use_test_digest.
  all: cbn in *.
  all: rewrite ?Ht.
  all: give_events.
  all: split; [intros p; events_facts; reflexivity|].
  all: split; [reflexivity|].
  all: split; [reflexivity|].
  all: intros e' [= <-].
  all: split; [reflexivity|].
  all: split; [reflexivity|].
  all: intros p; events_facts; cbn.
  all: intros Hp; repeat (apply elem_of_cons in Hp as [->|Hp]; [by auto|]).
  all: by apply elem_of_nil in Hp.
Qed.

Lemma connect_success_digest (E : Env) (d : Database) (w : World)
    (d' : Database) (w' : World) :
  connect E (d, w) = (Ok tt, (d', w')) ->
  exists evs, trace w' = (evs ++ trace w)%list /\
    exists m rd,
    _connected d' = true /\
    master_engine d' = Some m /\ eng_id m = next_id w /\
    _build_connection_string (master_config d) = Ok (eng_url m) /\
    write_session_factory d' = Some (make_sessionmaker (Some m)) /\
    read_session_factory d' = Some (make_sessionmaker (Some rd)) /\
    ((replica_engine d' = Some rd /\ forall x, probe_failed x evs = false) \/
     (replica_engine d' = None /\ rd = m /\ forall x, probe_failed x evs = false) \/
     (replica_engine d' = None /\ probe_failed rd evs = true /\
      (replica_engine d = Some rd \/ eng_id rd = S (next_id w)) /\
      forall x, probe_failed x evs = true -> x = rd)).
Proof.
  intros H. unfold connect in H. unfold_prims. unfold is_set in H.
  run_paths.
  all: use_test_digest.
  all: cbn in *; simplify_eq.
  all: rewrite ?Ht.
  all: give_events.
  all: eexists _, _.
  all: split; [reflexivity|].
  all: split; [reflexivity|].
  all: split; [reflexivity|].
  all: split; [reflexivity || eassumption|].
  all: split; [reflexivity|].
  all: split; [reflexivity|].
  all: first
    [ left; split; [eassumption || reflexivity|];
      intros x; events_facts; rewrite ?Hpf; reflexivity
    | right; left; split; [eassumption || reflexivity|]; split; [reflexivity|];
      intros x; events_facts; rewrite ?Hpf; reflexivity
    | right; right; split; [reflexivity|]; split;
      [ events_facts; rewrite Hpf; reflexivity |]; split;
      [ first [left; eassumption | right; reflexivity]
      | intros x; events_facts; cbn; rewrite ?orb_false_r; apply Huniq ] ].
Qed.

Lemma connect_consistent (E : Env) (st : St) :
  consistent st -> consistent (connect E st).2.
Proof.
  destruct st as [d w]. intros [Hmi Hri Hurl Hdist Hwr Hconn Hcfg]. cbn in *.
  destruct (connect E (d, w)) as [res [d' w']] eqn:H.
  unfold connect in H. unfold_prims. unfold is_set in H.
  run_paths.
  all: use_test_digest.
  all: cbn in *.
  all: constructor; cbn in *; rewrite ?Hn.
  all: try (intros; simplify_eq; cbn in *; try lia; eauto; fail).
  all: try (intros; congruence).
  all: try (intros; simplify_eq; cbn in *;
            match goal with
            | Hr : replica_engine _ = Some _ |- _ => specialize (Hri _ Hr)
            end; lia).
  all: intros m Hm; specialize (Hurl m Hm); congruence.
Qed.

Lemma dispose_invoked_cons (p : AsyncEngine) (ev : Event) (evs : list Event) :
  dispose_invoked p (ev :: evs) = true <->
  (exists ok, ev = EvDispose p ok) \/ dispose_invoked p evs = true.
Proof.
  change (dispose_invoked p (ev :: evs) = true)
    with (match ev with
          | EvDispose e' _ => bool_decide (e' = p)
          | _ => false
          end || dispose_invoked p evs = true).
  rewrite orb_true_iff. destruct ev; try naive_solver.
  rewrite bool_decide_eq_true. naive_solver.
Qed.

Lemma dispose_invoked_nil (p : AsyncEngine) : dispose_invoked p [] = true <-> False.
Proof. done. Qed.

(** How [disconnect] ends: either every pool the manager references was
    disposed, primary first, and only the flag changed; or a [dispose()]
    raised, and then nothing after it ran: the manager is as it was. *)
Lemma disconnect_digest (E : Env) (d : Database) (w : World)
    (res : Result unit) (d' : Database) (w' : World) :
  disconnect E (d, w) = (res, (d', w')) ->
  exists evs, trace w' = (evs ++ trace w)%list /\
    next_id w' = next_id w /\ opened evs = [] /\
    ((res = Ok tt /\ d' = set_connected false d /\
      (forall p, dispose_invoked p evs = true <->
                 (master_engine d = Some p \/ replica_engine d = Some p))) \/
     (exists msg p, res = Raise (LibraryError msg) /\ d' = d /\
        hd_error evs = Some (EvDispose p false) /\
        ((master_engine d = Some p /\
          forall q, dispose_invoked q evs = true -> q = p) \/
         replica_engine d = Some p))).
Proof.
  intros H. unfold disconnect in H. unfold_prims. run_paths.
  all: give_events.
  all: split; [reflexivity|].
  all: split; [reflexivity|].
  all: repeat match goal with
         | H : replica_engine _ = _ |- _ => rewrite H; clear H
         end.
  all: first
    [ left; split; [reflexivity|]; split; [reflexivity|];
      intros p; rewrite !dispose_invoked_cons, dispose_invoked_nil; naive_solver
    | right; eexists _, _; split; [reflexivity|]; split; [reflexivity|];
      split; [reflexivity|];
      first [ right; reflexivity
            | left; split; [reflexivity|];
              intros q; rewrite !dispose_invoked_cons, dispose_invoked_nil;
              naive_solver ] ].
Qed.

(** ** The invariant of reachable states *)

Lemma test_connections_consistent (E : Env) (st : St) :
  consistent st -> consistent (_test_connections E st).2.
Proof.
  destruct st as [d w]. intros Hc.
  destruct (_test_connections E (d, w)) as [res [d' w']] eqn:H.
  destruct Hc as [Hmi Hri Hurl Hdist Hwr Hconn Hcfg]. cbn in Hmi, Hri, Hurl, Hdist, Hwr, Hconn, Hcfg |- *.
  apply test_connections_digest in H as (evs & _ & Hn & _ & Hraise & Hok).
  assert (d' = d \/ d' = set_replica_engine None d) as [-> | ->].
  { destruct res as [[]|e]; [|left; by eapply Hraise].
    destruct (Hok eq_refl) as [_ [[-> _] | (r & _ & -> & _)]]; auto. }
  all: constructor; cbn; rewrite ?Hn; auto; try done.
Qed.

Lemma disconnect_consistent (E : Env) (st : St) :
  consistent st -> consistent (disconnect E st).2.
Proof.
  destruct st as [d w]. intros Hc.
  destruct (disconnect E (d, w)) as [res [d' w']] eqn:H.
  destruct Hc as [Hmi Hri Hurl Hdist Hwr Hconn Hcfg]. cbn in Hmi, Hri, Hurl, Hdist, Hwr, Hconn, Hcfg |- *.
  apply disconnect_digest in H as (evs & _ & Hn & _ & Hcases).
  assert (d' = d \/ d' = set_connected false d) as [-> | ->].
  { destruct Hcases as [(_ & -> & _) | (msg & p & _ & -> & _)]; auto. }
  all: constructor; cbn; rewrite ?Hn; auto; try done.
Qed.

Lemma init_consistent (mc rc : gmap string Py.value) (ps mo pt pr : Z) (w : World) :
  consistent (__init__ mc rc ps mo pt pr, w).
Proof. constructor; cbn; done. Qed.

Lemma reachable_consistent (E : Env) (st : St) :
  reachable E st -> consistent st.
Proof.
  induction 1;
    auto using init_consistent, connect_consistent, disconnect_consistent,
      test_connections_consistent.
Qed.

Lemma reachable_after_connect (E : Env) (d : Database) (w : World) :
  reachable E (d, w) ->
  reachable E ((connect E (d, w)).2.1, (connect E (d, w)).2.2).
Proof.
  intros H. apply (reach_connect E) in H.
  by destruct (connect E (d, w)) as [r [d' w']].
Qed.

(** ** Configurations and connection strings *)

Lemma first_missing_build (config : gmap string Py.value) (k : string) :
  first_missing config = Some k ->
  _build_connection_string config = Raise (KeyError k).
Proof.
  unfold first_missing, _build_connection_string, getitem, required_fields.
  cbn.
  destruct (config !! "username"); cbn; [|congruence].
  destruct (config !! "password"); cbn; [|congruence].
  destruct (config !! "host"); cbn; [|congruence].
  destruct (config !! "port"); cbn; [|congruence].
  destruct (config !! "database"); cbn; [|congruence].
  done.
Qed.

Lemma first_missing_none_build (config : gmap string Py.value) :
  first_missing config = None ->
  exists url, _build_connection_string config = Ok url.
Proof.
  unfold first_missing, _build_connection_string, getitem, required_fields.
  cbn.
  destruct (config !! "username"); cbn; [|done].
  destruct (config !! "password"); cbn; [|done].
  destruct (config !! "host"); cbn; [|done].
  destruct (config !! "port"); cbn; [|done].
  destruct (config !! "database"); cbn; [|done].
  eauto.
Qed.




(** The probe of a manager that holds only a primary the library reaches. *)
Lemma test_connections_primary_only (E : Env) (d : Database) (w : World)
    (m : AsyncEngine) :
  master_engine d = Some m -> replica_engine d = None ->
  (forall w, env_checkout E w m = None) ->
  (forall w q, env_execute E w m q = None) ->
  _test_connections E (d, w) =
    (Ok tt, (d, {| next_id := next_id w;
                   trace := EvRelease m :: EvLog DEBUG "Master OK"
                            :: EvExecute m "SELECT 1" true
                            :: EvCheckout m true :: trace w |})).
Proof.
  intros Hm Hr Hc He. unfold _test_connections. unfold_prims. cbn.
  rewrite Hm, Hc. cbn. rewrite He. cbn. rewrite Hr. reflexivity.
Qed.

(** ** Fallback of the read path when the replica does not answer *)

(** C1: evaluation of the code at the failing input.  Primary db1 and
    replica db2 are both configured, the library opens both pools, and no
    connection can be checked out of the replica's pool.  [connect]
    succeeds, the manager is connected and [health_check] reports no
    replica; but the read factory was bound before the probe and is not
    bound again: a read session is bound to the discarded replica pool, a
    write session to the primary pool. *)
Theorem replica_probe_failure_read_session :
  let out := connect (Scenario.unreachable Scenario.replica_url)
               (new_Database Scenario.primary_cfg Scenario.replica_cfg,
                Scenario.world0) in
  let d' := out.2.1 in
  out.1 = Ok tt /\
  probe_failed Scenario.replica_pool (trace out.2.2) = true /\
  In (EvLog WARNING "Replica failed, falling back to master") (trace out.2.2) /\
  health_check d' = {| status := "healthy"; master := true; replica := false |} /\
  get_session d' "write" =
    Ok {| sess_bind := Some Scenario.primary_pool; sess_expire_on_commit := false |} /\
  get_session d' "read" =
    Ok {| sess_bind := Some Scenario.replica_pool; sess_expire_on_commit := false |} /\
  get_session d' "read" <> get_session d' "write".
Proof.
  vm_compute. repeat split; auto 10. discriminate.
Qed.

(** Whenever the probe of an engine fails in a [connect] that succeeds,
    that engine is the replica the read factory was bound to: the manager
    forgets it, and read sessions stay bound to it, not to the primary. *)
Lemma replica_probe_failure_stale_read (E : Env) (d : Database) (w : World)
    (d' : Database) (w' : World) (r : AsyncEngine) :
  consistent (d, w) ->
  connect E (d, w) = (Ok tt, (d', w')) ->
  probe_failed r (new_events w w') = true ->
  replica_engine d' = None /\
  get_session d' "read" =
    Ok {| sess_bind := Some r; sess_expire_on_commit := false |} /\
  exists m, master_engine d' = Some m /\ m <> r /\
    get_session d' "write" =
      Ok {| sess_bind := Some m; sess_expire_on_commit := false |}.
Proof.
  intros Hc H Hr.
  apply connect_success_digest in H
    as (evs & Hevs & m & rd & Hconn & Hm & Hid & _ & Hw & Hrd & Hcases).
  rewrite (new_events_app _ _ _ Hevs) in Hr.
  destruct Hcases as [[_ Hpf] | [(_ & _ & Hpf) | (Hnone & _ & Hfrom & Huniq)]];
    [by rewrite Hpf in Hr | by rewrite Hpf in Hr |].
  apply Huniq in Hr as ->.
  unfold get_session. rewrite Hconn, Hw, Hrd. cbn.
  split; [done|]. split; [done|]. exists m. split; [done|]. split; [|done].
  intros ->. destruct Hfrom as [Hold | Hnew]; [|lia].
  apply (cons_replica_id _ Hc) in Hold. cbn in Hold. lia.
Qed.

(** ** A [connect] that fails *)

(** C2, counterexample: the primary's pool is opened, its probe raises,
    [connect] raises; the pool was opened and never disposed, and the
    manager still references it and the two factories bound to it. *)
Lemma connect_primary_down_keeps_pool :
  let out := connect (Scenario.unreachable Scenario.primary_url)
               (new_Database Scenario.primary_cfg ∅, Scenario.world0) in
  out.1 = Raise (LibraryError "connection refused") /\
  opened (new_events Scenario.world0 out.2.2) = [Scenario.primary_pool] /\
  dispose_invoked Scenario.primary_pool (new_events Scenario.world0 out.2.2) = false /\
  master_engine out.2.1 = Some Scenario.primary_pool /\
  write_session_factory out.2.1 = Some (make_sessionmaker (Some Scenario.primary_pool)).
Proof. vm_compute. done. Qed.

(** C2, as amended: when [connect] fails, the exception reaches the caller
    after it was logged, the connected flag is what it was before the call
    (a manager that was not connected does not become connected), and
    [connect] disposes nothing: every pool opened during the call is still
    allocated and still referenced by the manager. *)
Theorem connect_failure_keeps_pools (E : Env) (d : Database) (w : World)
    (e : Exception) (d' : Database) (w' : World) :
  connect E (d, w) = (Raise e, (d', w')) ->
  hd_error (new_events w w') =
    Some (EvLog ERROR ("Database connection failed: " ++ exn_str e)) /\
  _connected d' = _connected d /\
  (forall p, dispose_invoked p (new_events w w') = false) /\
  (forall p, p ∈ opened (new_events w w') ->
     master_engine d' = Some p \/ replica_engine d' = Some p).
Proof.
  intros H.
  apply connect_digest in H as (evs & Hevs & Hdisp & _ & _ & Hfail).
  rewrite (new_events_app _ _ _ Hevs).
  destruct (Hfail e eq_refl) as (Hhd & Hflag & Hrefs). auto.
Qed.

Lemma connect_failure_keeps_pools_witness :
  let st := (new_Database Scenario.primary_cfg ∅, Scenario.world0) in
  let out := connect (Scenario.unreachable Scenario.primary_url) st in
  _connected out.2.1 = false /\
  (forall p, dispose_invoked p (new_events Scenario.world0 out.2.2) = false) /\
  (forall p, p ∈ opened (new_events Scenario.world0 out.2.2) ->
     master_engine out.2.1 = Some p \/ replica_engine out.2.1 = Some p).
Proof.
  intros st out.
  assert (out = (Raise (LibraryError "connection refused"), (out.2.1, out.2.2)))
    as Hrun by (vm_compute; reflexivity).
  destruct (connect_failure_keeps_pools _ _ _ _ _ _ Hrun)
    as (_ & Hflag & Hdisp & Hrefs).
  split; [exact Hflag|]. split; [exact Hdisp | exact Hrefs].
Defined.

(** ** Configuration errors *)

(** C3, counterexample: a primary configuration whose password is present
    and empty does not pass validation, and yet [connect] succeeds with it:
    the empty field is written into the connection string, a pool is
    opened and the manager becomes connected. *)
Lemma connect_accepts_empty_password :
  let out := connect Scenario.all_up
               (new_Database Scenario.empty_password_config ∅, Scenario.world0) in
  config_valid Scenario.empty_password_config = false /\
  out.1 = Ok tt /\
  _connected out.2.1 = true /\
  opened (trace out.2.2) =
    [Scenario.engine 0 "postgresql+asyncpg://a:@db1:5432/app"].
Proof. vm_compute. done. Qed.

(** C3, as amended: when the primary configuration lacks one of the keys
    username, password, host, port, database, [connect] fails with the
    [KeyError] of the first key missing in that order, and the manager is
    unchanged: no pool is opened, no factory is bound, the flag keeps its
    value; the only effects are the two log lines. *)
Theorem connect_missing_field (E : Env) (d : Database) (w : World) (k : string) :
  first_missing (master_config d) = Some k ->
  connect E (d, w) =
    (Raise (KeyError k),
     (d, {| next_id := next_id w;
            trace := EvLog ERROR ("Database connection failed: " ++ "'" ++ k ++ "'")
                     :: EvLog INFO "Connecting to databases..." :: trace w |})).
Proof.
  intros Hk. apply first_missing_build in Hk.
  unfold connect. unfold_prims. cbn. rewrite Hk. reflexivity.
Qed.

Lemma connect_missing_field_witness :
  first_missing Scenario.no_host_config = Some "host" /\
  connect Scenario.all_up (new_Database Scenario.no_host_config ∅, Scenario.world0) =
    (Raise (KeyError "host"),
     (new_Database Scenario.no_host_config ∅,
      {| next_id := 0;
         trace := [EvLog ERROR "Database connection failed: 'host'";
                   EvLog INFO "Connecting to databases..."] |})).
Proof.
  split; [vm_compute; reflexivity|].
  apply (connect_missing_field Scenario.all_up
           (new_Database Scenario.no_host_config ∅) Scenario.world0 "host").
  vm_compute; reflexivity.
Defined.

(** ** Sessions of a manager that is not connected *)

Lemma init_not_connected (mc rc : gmap string Py.value) (ps mo pt pr : Z) :
  _connected (__init__ mc rc ps mo pt pr) = false.
Proof. reflexivity. Qed.

Lemma disconnect_not_connected (E : Env) (d : Database) (w : World)
    (d' : Database) (w' : World) :
  disconnect E (d, w) = (Ok tt, (d', w')) -> _connected d' = false.
Proof.
  intros H. apply disconnect_digest in H as (evs & _ & _ & _ & Hcases).
  destruct Hcases as [(_ & -> & _) | (msg & p & [=] & _)]. reflexivity.
Qed.

Lemma failed_connect_not_connected (E : Env) (d : Database) (w : World)
    (e : Exception) (d' : Database) (w' : World) :
  _connected d = false ->
  connect E (d, w) = (Raise e, (d', w')) -> _connected d' = false.
Proof.
  intros Hd H. apply connect_digest in H as (evs & _ & _ & _ & _ & Hfail).
  destruct (Hfail e eq_refl) as (_ & -> & _). exact Hd.
Qed.

(** C4: while the manager is not connected, [get_session] fails for every
    kind with the error "Database not connected" (the [RuntimeError] the
    code raises for the specification's NotConnectedError) and returns no
    session.  By [init_not_connected], [failed_connect_not_connected] and
    [disconnect_not_connected] this is the case before any [connect]
    succeeded and after [disconnect]. *)
Theorem get_session_not_connected (d : Database) (kind : string) :
  _connected d = false ->
  get_session d kind = Raise (RuntimeError "Database not connected") /\
  forall s, get_session d kind <> Ok s.
Proof.
  intros Hd. unfold get_session. rewrite Hd. cbn. split; [reflexivity | discriminate].
Qed.

Lemma get_session_not_connected_witness :
  let fresh := new_Database Scenario.primary_cfg Scenario.replica_cfg in
  let connected := (connect Scenario.all_up (fresh, Scenario.world0)).2 in
  let closed := (disconnect Scenario.all_up connected).2.1 in
  get_session fresh "read" = Raise (RuntimeError "Database not connected") /\
  get_session connected.1 "read" <> Raise (RuntimeError "Database not connected") /\
  get_session closed "read" = Raise (RuntimeError "Database not connected") /\
  get_session closed "write" = Raise (RuntimeError "Database not connected").
Proof.
  intros fresh connected closed.
  split; [apply (get_session_not_connected fresh "read"); reflexivity|].
  split; [vm_compute; discriminate|].
  split.
  - apply (get_session_not_connected closed "read"). vm_compute. reflexivity.
  - apply (get_session_not_connected closed "write"). vm_compute. reflexivity.
Defined.

(** ** Releasing the pools *)

(** C5, counterexample: both pools are open and disposing the primary's
    pool raises.  [disconnect] raises, it never invokes [dispose()] on the
    replica's pool, and the manager stays connected. *)
Lemma disconnect_stops_at_first_failure :
  let connected := (connect Scenario.all_up
                      (new_Database Scenario.primary_cfg Scenario.replica_cfg,
                       Scenario.world0)).2 in
  let out := disconnect (Scenario.dispose_fails Scenario.primary_url) connected in
  replica_engine connected.1 = Some Scenario.replica_pool /\
  out.1 = Raise (LibraryError "cannot close connection") /\
  dispose_invoked Scenario.primary_pool (new_events connected.2 out.2.2) = true /\
  dispose_invoked Scenario.replica_pool (new_events connected.2 out.2.2) = false /\
  _connected out.2.1 = true.
Proof. vm_compute. done. Qed.

(** The world once [ev] has happened. *)
Definition after (ev : Event) (w : World) : World :=
  {| next_id := next_id w; trace := ev :: trace w |}.

(** A [dispose()] that raises ends [disconnect]: the error reaches the
    caller at once, with the manager as it was.  [w1] is the world in
    which the primary's [dispose()] is called, and the replica's is called
    in [w1] or, after the primary's returned, one event later. *)
Lemma disconnect_failures (E : Env) (d : Database) (w : World)
    (res : Result unit) (d' : Database) (w' : World) :
  disconnect E (d, w) = (res, (d', w')) ->
  let w1 := after (EvLog INFO "Disconnecting databases...") w in
  exists evs, trace w' = (evs ++ trace w)%list /\
    (forall p, In (EvDispose p false) evs ->
       exists msg, res = Raise (LibraryError msg) /\ d' = d /\
         hd_error evs = Some (EvDispose p false)) /\
    (res = Ok tt ->
     forall p, In (EvDispose p true) evs <->
               (master_engine d = Some p \/ replica_engine d = Some p)) /\
    (forall m msg, master_engine d = Some m -> env_dispose E w1 m = Some msg ->
       res = Raise (LibraryError msg) /\ d' = d /\
       evs = [EvDispose m false; EvLog INFO "Disconnecting databases..."]) /\
    (forall r msg, replica_engine d = Some r ->
       env_dispose E
         (match master_engine d with
          | Some m => after (EvDispose m true) w1
          | None => w1
          end) r = Some msg ->
       (forall m, master_engine d = Some m -> env_dispose E w1 m = None) ->
       res = Raise (LibraryError msg) /\ d' = d /\
       hd_error evs = Some (EvDispose r false)).
Proof.
  intros H w1. subst w1. unfold after.
  unfold disconnect in H. unfold_prims. run_paths.
  all: give_events.
  all: repeat match goal with
         | H : replica_engine _ = _ |- _ => rewrite H; clear H
         end.
  all: cbn.

  all: naive_solver.
Qed.

(** C5, as amended: [disconnect] disposes the primary's pool, then the
    replica's pool, each when the manager references one.  When no
    [dispose()] raises it ends normally, exactly the referenced pools were
    disposed, each with success, and only the connected flag changed, to
    disconnected; calling it again then leaves the manager as it is (it
    disposes the referenced pools once more).  A [dispose()] that raises
    makes [disconnect] raise: the exception reaches the caller at once and
    the manager is unchanged, so the flag keeps its value and, if it was
    the primary's [dispose()], the replica's is not invoked. *)
Theorem disconnect_outcomes (E : Env) (d : Database) (w : World)
    (res : Result unit) (d' : Database) (w' : World) :
  disconnect E (d, w) = (res, (d', w')) ->
  let w1 := after (EvLog INFO "Disconnecting databases...") w in
  ((res = Ok tt /\ d' = set_connected false d /\ _connected d' = false /\
    (forall p, dispose_invoked p (new_events w w') = true <->
               (master_engine d = Some p \/ replica_engine d = Some p)) /\
    (forall p, In (EvDispose p true) (new_events w w') <->
               (master_engine d = Some p \/ replica_engine d = Some p)) /\
    (forall p, ~ In (EvDispose p false) (new_events w w')) /\
    (forall res2 d2 w2, disconnect E (d', w') = (res2, (d2, w2)) -> d2 = d')) \/
   (exists msg p, res = Raise (LibraryError msg) /\ d' = d /\
      hd_error (new_events w w') = Some (EvDispose p false) /\
      ((master_engine d = Some p /\
        forall q, dispose_invoked q (new_events w w') = true -> q = p) \/
       replica_engine d = Some p))) /\
  (forall p, In (EvDispose p false) (new_events w w') ->
     exists msg, res = Raise (LibraryError msg) /\ d' = d /\
       hd_error (new_events w w') = Some (EvDispose p false)) /\
  (forall m msg, master_engine d = Some m -> env_dispose E w1 m = Some msg ->
     res = Raise (LibraryError msg) /\ d' = d /\
     new_events w w' = [EvDispose m false; EvLog INFO "Disconnecting databases..."]) /\
  (forall r msg, replica_engine d = Some r ->
     env_dispose E
       (match master_engine d with
        | Some m => after (EvDispose m true) w1
        | None => w1
        end) r = Some msg ->
     (forall m, master_engine d = Some m -> env_dispose E w1 m = None) ->
     res = Raise (LibraryError msg) /\ d' = d /\
     hd_error (new_events w w') = Some (EvDispose r false)).
Proof.
  intros H w1.
  pose proof (disconnect_failures _ _ _ _ _ _ H)
    as (evs0 & Hevs0 & Hfalse & Htrue & Hprimary & Hreplica).
  apply disconnect_digest in H as (evs & Hevs & _ & _ & Hcases).
  assert (evs0 = evs) as ->
    by (rewrite Hevs in Hevs0; by apply app_inv_tail in Hevs0).
  rewrite (new_events_app _ _ _ Hevs).
  split; [|split; [exact Hfalse | split; [exact Hprimary | exact Hreplica]]].
  destruct Hcases as [(-> & -> & Hdisp) | Hfail]; [left | by right].
  do 3 (split; [done|]). split; [exact Hdisp|].
  split; [by apply Htrue|]. split.
  - intros p Hp. by destruct (Hfalse p Hp) as (msg & [=] & _).
  - intros res2 d2 w2 H2.
    apply disconnect_digest in H2 as (evs2 & _ & _ & _ & Hcases2).
    by destruct Hcases2 as [(_ & -> & _) | (msg & p & _ & -> & _)].
Qed.

Lemma disconnect_outcomes_witness :
  let connected := (connect Scenario.all_up
                      (new_Database Scenario.primary_cfg Scenario.replica_cfg,
                       Scenario.world0)).2 in
  let out := disconnect Scenario.all_up connected in
  (out.1 = Ok tt /\
   (disconnect Scenario.all_up out.2).2.1 = out.2.1 /\
   dispose_invoked Scenario.replica_pool (new_events connected.2 out.2.2) = true) /\
  ((disconnect (Scenario.dispose_fails Scenario.primary_url) Scenario.both_up).1 =
     Raise (LibraryError "cannot close connection") /\
   (disconnect (Scenario.dispose_fails Scenario.primary_url) Scenario.both_up).2.1 =
     Scenario.both_up.1 /\
   new_events Scenario.both_up.2
     (disconnect (Scenario.dispose_fails Scenario.primary_url) Scenario.both_up).2.2 =
     [EvDispose Scenario.primary_pool false;
      EvLog INFO "Disconnecting databases..."]).
Proof.
  intros connected out. split.
  - assert (disconnect Scenario.all_up (connected.1, connected.2)
            = (out.1, (out.2.1, out.2.2))) as Hrun by (vm_compute; reflexivity).
    destruct (disconnect_outcomes _ _ _ _ _ _ Hrun)
      as [[(Hok & _ & _ & Hdisp & _ & _ & Hagain) | (msg & p & Hraise & _)] _].
    + split; [exact Hok|]. split.
      * apply (Hagain (disconnect Scenario.all_up out.2).1 _
                 (disconnect Scenario.all_up out.2).2.2).
        vm_compute; reflexivity.
      * apply Hdisp. right. vm_compute; reflexivity.
    + exfalso. vm_compute in Hraise. discriminate Hraise.
  - assert (disconnect (Scenario.dispose_fails Scenario.primary_url)
              (Scenario.both_up.1, Scenario.both_up.2)
            = ((disconnect (Scenario.dispose_fails Scenario.primary_url)
                  Scenario.both_up).1,
               ((disconnect (Scenario.dispose_fails Scenario.primary_url)
                   Scenario.both_up).2.1,
                (disconnect (Scenario.dispose_fails Scenario.primary_url)
                   Scenario.both_up).2.2)))
      as Hrun by (vm_compute; reflexivity).
    destruct (disconnect_outcomes _ _ _ _ _ _ Hrun) as (_ & _ & Hprimary & _).
    apply (Hprimary Scenario.primary_pool "cannot close connection");
      vm_compute; reflexivity.
Defined.

(** ** Routing *)

(** C6: in every reachable state the write factory, once made, is bound to
    the engine the manager holds as primary, which was opened on the
    primary's connection string and is not the object held as replica; so
    a write session, and the session of any kind other than "read", is
    bound to the primary and never to the replica.  A connected manager
    has a write factory, so there [get_session] returns such a session. *)
Theorem write_session_bound_to_primary (E : Env) (d : Database) (w : World) :
  reachable E (d, w) ->
  (forall f, write_session_factory d = Some f ->
   exists m, sm_bind f = Some m /\
     master_engine d = Some m /\
     _build_connection_string (master_config d) = Ok (eng_url m) /\
     replica_engine d <> Some m /\
     forall kind s, kind <> "read" -> get_session d kind = Ok s ->
       sess_bind s = Some m) /\
  (_connected d = true ->
   exists s m, get_session d "write" = Ok s /\ sess_bind s = Some m /\
     master_engine d = Some m /\ replica_engine d <> Some m).
Proof.
  intros Hreach. apply reachable_consistent in Hreach as Hc.
  assert (forall f, write_session_factory d = Some f ->
          exists m, sm_bind f = Some m /\ master_engine d = Some m /\
            _build_connection_string (master_config d) = Ok (eng_url m) /\
            replica_engine d <> Some m) as Hbound.
  { intros f Hf.
    destruct (cons_write _ Hc f Hf) as [Hset Hbind]. cbn in Hset, Hbind.
    destruct (master_engine d) as [m|] eqn:Hm; [|done].
    exists m. split; [done|]. split; [done|].
    split; [by apply (cons_master_url _ Hc)|].
    intros Hr. by apply (cons_distinct _ Hc m m). }
  split.
  - intros f Hf. destruct (Hbound f Hf) as (m & Hbind & Hm & Hurl & Hr).
    exists m. repeat split; try done.
    intros kind s Hkind. unfold get_session.
    destruct (_connected d); cbn; [|done].
    apply String.eqb_neq in Hkind. rewrite Hkind, Hf. cbn.
    intros [= <-]. done.
  - intros Hd. destruct (cons_connected _ Hc Hd) as [Hw _]. cbn in Hw.
    destruct (write_session_factory d) as [f|] eqn:Hf; [|done].
    destruct (Hbound f eq_refl) as (m & Hbind & Hm & _ & Hr).
    exists (call_sessionmaker f), m.
    unfold get_session. rewrite Hd, Hf. cbn. done.
Qed.

Lemma write_session_bound_to_primary_witness :
  exists m, master_engine Scenario.both_up.1 = Some m /\
    replica_engine Scenario.both_up.1 <> Some m /\
    forall kind s, kind <> "read" -> get_session Scenario.both_up.1 kind = Ok s ->
      sess_bind s = Some m.
Proof.
  destruct (write_session_bound_to_primary Scenario.all_up _ _
              (reachable_after_connect Scenario.all_up _ Scenario.world0
                 (reach_init Scenario.all_up Scenario.primary_cfg
                    Scenario.replica_cfg default_pool_size default_max_overflow
                    default_pool_timeout default_pool_recycle Scenario.world0)))
    as [Hbound _].
  destruct (Hbound (make_sessionmaker (Some Scenario.primary_pool))
              ltac:(vm_compute; reflexivity))
    as (m & _ & Hm & _ & Hr & Hs).
  exists m. split; [exact Hm|]. split; [exact Hr | exact Hs].
Defined.

(** C7, counterexample: primary and replica are both up.  A session asked
    for with kind "delete", which is not "write", is drawn from the write
    factory and bound to the primary; the read factory would have bound it
    to the replica. *)
Lemma get_session_other_kind_uses_write_factory :
  let d := (connect Scenario.all_up
              (new_Database Scenario.primary_cfg Scenario.replica_cfg,
               Scenario.world0)).2.1 in
  _connected d = true /\
  get_session d "delete" = call_factory (write_session_factory d) /\
  get_session d "delete" <> call_factory (read_session_factory d).
Proof. vm_compute. repeat split; discriminate. Qed.

(** C7, as amended: in the connected state [get_session] draws the session
    from the read factory when the kind is "read", and from the write
    factory for every other kind, among them "write", which is the
    default. *)
Theorem get_session_routing (d : Database) (kind : string) :
  _connected d = true ->
  (kind = "read" -> get_session d kind = call_factory (read_session_factory d)) /\
  (kind <> "read" -> get_session d kind = call_factory (write_session_factory d)) /\
  get_session_default d = call_factory (write_session_factory d).
Proof.
  intros Hd. unfold get_session_default, get_session. rewrite Hd. cbn.
  split; [by intros ->|]. split; [|done].
  intros Hkind. apply String.eqb_neq in Hkind. by rewrite Hkind.
Qed.

Lemma get_session_routing_witness :
  _connected Scenario.both_up.1 = true /\
  get_session Scenario.both_up.1 "read" =
    call_factory (read_session_factory Scenario.both_up.1) /\
  get_session Scenario.both_up.1 "write" =
    call_factory (write_session_factory Scenario.both_up.1) /\
  get_session_default Scenario.both_up.1 =
    call_factory (write_session_factory Scenario.both_up.1).
Proof.
  assert (_connected Scenario.both_up.1 = true) as Hd by (vm_compute; reflexivity).
  split; [exact Hd|].
  destruct (get_session_routing Scenario.both_up.1 "read" Hd) as (Hread & _ & Hdefault).
  destruct (get_session_routing Scenario.both_up.1 "write" Hd) as (_ & Hwrite & _).
  split; [exact (Hread eq_refl)|].
  split; [apply Hwrite; discriminate | exact Hdefault].
Defined.

(** ** Primary only *)



(** The same with a replica configuration whose fields are all present
    and empty: this one fails [all(...)] and takes the other branch. *)
Lemma connect_blank_replica :
  let out := connect Scenario.all_up
               (new_Database Scenario.primary_cfg Scenario.blank_config,
                Scenario.world0) in
  Py.all_values Scenario.blank_config = false /\
  Py.all_values ∅ = true /\
  out.1 = Ok tt /\
  health_check out.2.1 = {| status := "healthy"; master := true; replica := false |} /\
  get_session out.2.1 "read" = get_session out.2.1 "write".
Proof. vm_compute. done. Qed.

(** ** The replica's pool after a failed probe *)

(** C9, counterexample: the replica's pool is opened, its probe fails, and
    [connect] ends without a single call of [dispose()]: the pool stays
    open though the manager no longer references it. *)
Lemma replica_probe_failure_pool_not_disposed :
  let out := connect (Scenario.unreachable Scenario.replica_url)
               (new_Database Scenario.primary_cfg Scenario.replica_cfg,
                Scenario.world0) in
  let evs := new_events Scenario.world0 out.2.2 in
  out.1 = Ok tt /\
  Scenario.replica_pool ∈ opened evs /\
  probe_failed Scenario.replica_pool evs = true /\
  dispose_invoked Scenario.replica_pool evs = false /\
  replica_engine out.2.1 = None.
Proof.
  vm_compute. repeat split. apply list_elem_of_here.
Qed.

(** C9, as amended: [connect] invokes [dispose()] on no pool, however it
    ends.  When a probe fails in a [connect] that returns, which is the
    case of the replica's probe, the replica is discarded by clearing the
    reference only: [replica_engine] becomes [None] and [health_check]
    reports no replica, while the pool stays open. *)
Theorem replica_probe_failure_no_dispose (E : Env) (d : Database) (w : World)
    (res : Result unit) (d' : Database) (w' : World) :
  connect E (d, w) = (res, (d', w')) ->
  (forall p, dispose_invoked p (new_events w w') = false) /\
  (res = Ok tt ->
   forall r, probe_failed r (new_events w w') = true ->
     replica_engine d' = None /\ replica (health_check d') = false).
Proof.
  intros H.
  pose proof (connect_digest _ _ _ _ _ _ H) as (evs0 & Hevs0 & Hdisp & _).
  rewrite (new_events_app _ _ _ Hevs0).
  split; [exact Hdisp|].
  intros -> r Hr.
  apply connect_success_digest in H
    as (evs & Hevs & m & rd & _ & _ & _ & _ & _ & _ & Hcases).
  assert (evs = evs0) as -> by (rewrite Hevs in Hevs0; by apply app_inv_tail in Hevs0).
  destruct Hcases as [[_ Hpf] | [(_ & _ & Hpf) | (Hnone & _)]];
    [by rewrite Hpf in Hr | by rewrite Hpf in Hr |].
  unfold health_check. cbn. rewrite Hnone. auto.
Qed.

Lemma replica_probe_failure_no_dispose_witness :
  let out := connect (Scenario.unreachable Scenario.replica_url)
               (new_Database Scenario.primary_cfg Scenario.replica_cfg,
                Scenario.world0) in
  (forall p, dispose_invoked p (new_events Scenario.world0 out.2.2) = false) /\
  replica_engine out.2.1 = None /\
  replica (health_check out.2.1) = false.
Proof.
  intros out.
  assert (out = (Ok tt, (out.2.1, out.2.2))) as Hrun by (vm_compute; reflexivity).
  destruct (replica_probe_failure_no_dispose _ _ _ _ _ _ Hrun) as [Hdisp Hok].
  split; [exact Hdisp|].
  apply (Hok eq_refl Scenario.replica_pool). vm_compute; reflexivity.
Defined.

(** ** What [disconnect] leaves behind *)

(** C10: [disconnect] changes at most the connected flag, however it
    ends; it keeps the configurations, the engines and both factories.  So
    after a [connect] that succeeded and a [disconnect] that ended
    normally, the manager is the connected one with the flag cleared, and
    [health_check] reports an unhealthy manager whose primary is still
    there, and whose replica is still there if [connect] had kept one. *)
Theorem disconnect_keeps_engines (E : Env) (d0 : Database) (w0 : World)
    (d1 : Database) (w1 : World) (res : Result unit) (d2 : Database) (w2 : World) :
  connect E (d0, w0) = (Ok tt, (d1, w1)) ->
  disconnect E (d1, w1) = (res, (d2, w2)) ->
  (d2 = d1 \/ d2 = set_connected false d1) /\
  master_engine d2 = master_engine d1 /\
  replica_engine d2 = replica_engine d1 /\
  write_session_factory d2 = write_session_factory d1 /\
  read_session_factory d2 = read_session_factory d1 /\
  master (health_check d2) = true /\
  replica (health_check d2) = is_set (replica_engine d1) /\
  (res = Ok tt ->
   d2 = set_connected false d1 /\
   health_check d2 =
     {| status := "unhealthy"; master := true;
        replica := is_set (replica_engine d1) |}).
Proof.
  intros Hc Hd.
  apply connect_success_digest in Hc
    as (evs & _ & m & rd & _ & Hm & _).
  apply disconnect_digest in Hd as (evs' & _ & _ & _ & Hcases).
  unfold health_check.
  destruct Hcases as [(-> & -> & _) | (msg & p & -> & -> & _)];
    cbn; rewrite Hm; repeat split; auto; done.
Qed.

Lemma disconnect_keeps_engines_witness :
  let closed := (disconnect Scenario.all_up Scenario.both_up).2.1 in
  closed = set_connected false Scenario.both_up.1 /\
  health_check closed = {| status := "unhealthy"; master := true; replica := true |}.
Proof.
  destruct (disconnect_keeps_engines Scenario.all_up
              (new_Database Scenario.primary_cfg Scenario.replica_cfg) Scenario.world0
              Scenario.both_up.1 Scenario.both_up.2 (Ok tt)
              (disconnect Scenario.all_up Scenario.both_up).2.1
              (disconnect Scenario.all_up Scenario.both_up).2.2
              ltac:(vm_compute; reflexivity) ltac:(vm_compute; reflexivity))
    as (_ & _ & _ & _ & _ & _ & _ & Hok).
  destruct (Hok eq_refl) as [Hset Hhealth].
  split; [exact Hset|]. rewrite Hhealth. vm_compute; reflexivity.
Defined.

(** * Further properties *)

#[local] Arguments first_missing : simpl never.
#[local] Arguments new_events : simpl never.

(** ** Pools and connections in the events of a run *)

Lemma checked_out_app (evs1 evs2 : list Event) :
  checked_out (evs1 ++ evs2) = (checked_out evs1 ++ checked_out evs2)%list.
Proof. apply omap_app. Qed.

Lemma released_app (evs1 evs2 : list Event) :
  released (evs1 ++ evs2) = (released evs1 ++ released evs2)%list.
Proof. apply omap_app. Qed.

Lemma touched_app (e : AsyncEngine) (evs1 evs2 : list Event) :
  touched e (evs1 ++ evs2) = touched e evs1 || touched e evs2.
Proof. apply existsb_app. Qed.

(** What the probe does to the pools: every connection checked out is
    given back; when it raises, the manager has no primary engine and
    nothing happened, or the primary's probe failed and no other pool was
    used. *)
Lemma test_connections_pools (E : Env) (d : Database) (w : World)
    (res : Result unit) (d' : Database) (w' : World) :
  _test_connections E (d, w) = (res, (d', w')) ->
  exists evs, trace w' = (evs ++ trace w)%list /\
    released evs = checked_out evs /\
    (forall x, touched x evs = true ->
               master_engine d = Some x \/ replica_engine d = Some x) /\
    (forall e, res = Raise e ->
       (master_engine d = None /\ evs = [] /\
        e = AttributeError "'NoneType' object has no attribute 'connect'") \/
       (exists m msg, master_engine d = Some m /\ e = LibraryError msg /\
          probe_failed m evs = true /\
          forall x, touched x evs = true -> x = m)).
Proof.
  intros H. unfold _test_connections in H. unfold_prims. run_paths.
  all: give_events.
  all: split; [reflexivity|].
  all: split; [intros x; cbn; rewrite ?orb_false_r, ?orb_true_iff, ?bool_decide_eq_true; naive_solver|].
  all: intros e [= <-].
  all: first
    [ left; done
    | right; eexists _, _; split; [reflexivity|]; split; [reflexivity|]; split;
      [ match goal with |- probe_failed ?r _ = _ => probe_failed_of r end
      | intros x; cbn; rewrite ?orb_false_r, ?orb_true_iff, ?bool_decide_eq_true;
        naive_solver ] ].
Qed.


Lemma build_raise_first_missing (config : gmap string Py.value) (e : Exception) :
  _build_connection_string config = Raise e ->
  exists k, first_missing config = Some k /\ e = KeyError k.
Proof.
  unfold first_missing, _build_connection_string, getitem, required_fields.
  cbn.
  destruct (config !! "username"); cbn; [|intros [= <-]; eauto].
  destruct (config !! "password"); cbn; [|intros [= <-]; eauto].
  destruct (config !! "host"); cbn; [|intros [= <-]; eauto].
  destruct (config !! "port"); cbn; [|intros [= <-]; eauto].
  destruct (config !! "database"); cbn; [|intros [= <-]; eauto].
  done.
Qed.

(** Both digests of the probe, over the same events. *)
Lemma test_connections_full (E : Env) (d : Database) (w : World)
    (res : Result unit) (d' : Database) (w' : World) :
  _test_connections E (d, w) = (res, (d', w')) ->
  exists evs, trace w' = (evs ++ trace w)%list /\
    next_id w' = next_id w /\ quiet evs = true /\
    released evs = checked_out evs /\
    (forall x, touched x evs = true ->
               master_engine d = Some x \/ replica_engine d = Some x) /\
    (forall e, res = Raise e -> d' = d /\
       ((master_engine d = None /\ evs = [] /\
         e = AttributeError "'NoneType' object has no attribute 'connect'") \/
        (exists m msg, master_engine d = Some m /\ e = LibraryError msg /\
           probe_failed m evs = true /\
           forall x, touched x evs = true -> x = m))) /\
    (res = Ok tt -> d' = d \/ d' = set_replica_engine None d).
Proof.
  intros H.
  pose proof (test_connections_digest _ _ _ _ _ _ H)
    as (evs & Hevs & Hn & Hq & Hraise & Hok).
  apply test_connections_pools in H as (evs' & Hevs' & Hrel & Htouch & Hcause).
  assert (evs' = evs) as ->
    by (rewrite Hevs in Hevs'; by apply app_inv_tail in Hevs').
  exists evs. do 5 (split; [done|]). split.
  - intros e He. split; [by eapply Hraise | by apply Hcause].
  - intros Hres. destruct (Hok Hres) as [_ [[-> _] | (r & _ & -> & _)]]; auto.
Qed.

Ltac use_test_full :=
  lazymatch goal with
  | H : _test_connections _ _ = (Ok ?a, _) |- _ =>
      destruct a;
      apply test_connections_full in H
        as (evt & Ht & Hn & Hq & Hrel & Htouch & _ & Hok);
      destruct (Hok eq_refl) as [-> | ->]; clear Hok
  | H : _test_connections _ _ = (Raise ?e, _) |- _ =>
      apply test_connections_full in H
        as (evt & Ht & Hn & Hq & Hrel & Htouch & Hraise & _);
      destruct (Hraise _ eq_refl) as [-> Hcause]; clear Hraise
  | _ => idtac
  end.

Ltac events_facts2 :=
  rewrite ?dispose_invoked_app, ?opened_app, ?probe_failed_app,
    ?released_app, ?checked_out_app, ?touched_app;
  repeat match goal with
    | Hq : quiet ?l = true |- _ =>
        first [ rewrite (quiet_dispose_invoked _ l Hq)
              | rewrite (quiet_opened l Hq) ]
    end.

(** The pools [connect] opens and what it binds to them. *)
Lemma connect_opened (E : Env) (d : Database) (w : World)
    (res : Result unit) (d' : Database) (w' : World) :
  connect E (d, w) = (res, (d', w')) ->
  exists evs, trace w' = (evs ++ trace w)%list /\
    released evs = checked_out evs /\
    ((opened evs = [] /\ d' = d /\ checked_out evs = [] /\ exists e, res = Raise e) \/
     (exists m, master_engine d' = Some m /\
        eng_id m = next_id w /\ eng_options m = pool_options d /\
        _build_connection_string (master_config d) = Ok (eng_url m) /\
        write_session_factory d' = Some (make_sessionmaker (Some m)) /\
        (exists rd, read_session_factory d' = Some (make_sessionmaker (Some rd))) /\
        same_settings d d' /\
        ((opened evs = [m] /\
          (replica_engine d' = None \/
           (Py.all_values (replica_config d) = false /\
            replica_engine d' = replica_engine d))) \/
         (exists r, opened evs = [r; m] /\ eng_id r = S (next_id w) /\
            eng_options r = pool_options d /\
            Py.all_values (replica_config d) = true /\
            _build_connection_string (replica_config d) = Ok (eng_url r) /\
            (replica_engine d' = Some r \/ replica_engine d' = None))))).
Proof.
  intros H. unfold connect in H. unfold_prims. unfold is_set in H.
  run_paths.
  all: use_test_full.
  all: cbn in *; simplify_eq.
  all: rewrite ?Ht.
  all: give_events.
  all: split; [events_facts2; cbn; by rewrite ?Hrel|].
  all: events_facts2; cbn.
  all: first
    [ left; split; [reflexivity|]; split; [reflexivity|]; split; [reflexivity|];
      eexists; reflexivity
    | right; eexists; split; [reflexivity|]; split; [reflexivity|];
      split; [reflexivity|]; split; [reflexivity || eassumption|];
      split; [reflexivity|]; split; [eexists; reflexivity|];
      split; [by repeat split|] ].
  all: first
    [ left; split; [reflexivity|]; first [left; reflexivity | right; by split]
    | right; eexists; split; [reflexivity|]; split; [reflexivity|];
      split; [reflexivity|]; split; [reflexivity || eassumption|];
      split; [reflexivity || eassumption|];
      first [left; reflexivity | right; reflexivity] ].
Qed.

(** Why [connect] raises: a key of the primary's configuration is
    missing, the primary's engine cannot be created, or the primary's
    probe failed. *)
Lemma connect_causes (E : Env) (d : Database) (w : World)
    (e : Exception) (d' : Database) (w' : World) :
  connect E (d, w) = (Raise e, (d', w')) ->
  exists evs, trace w' = (evs ++ trace w)%list /\
    ((exists k, first_missing (master_config d) = Some k /\ e = KeyError k /\
        d' = d /\ opened evs = [] /\ forall x, touched x evs = false) \/
     (exists url msg, _build_connection_string (master_config d) = Ok url /\
        e = LibraryError msg /\ d' = d /\ opened evs = [] /\
        In (EvCreate url None) evs /\ forall x, touched x evs = false) \/
     (exists m msg, master_engine d' = Some m /\ eng_id m = next_id w /\
        e = LibraryError msg /\ probe_failed m evs = true /\
        (forall x, touched x evs = true -> x = m) /\
        _connected d' = _connected d)).
Proof.
  intros H. unfold connect in H. unfold_prims. unfold is_set in H.
  run_paths.
  all: use_test_full.
  all: cbn in *; simplify_eq.
  all: rewrite ?Ht.
  all: give_events.
  all: try match goal with
         | Hc : _ \/ _ |- _ =>
             destruct Hc as [(? & _) | (m' & msg' & Hm' & -> & Hpf & Huniq)];
             [done | simplify_eq]
         end.
  all: try match goal with
         | Hb : _build_connection_string _ = Raise _ |- _ =>
             apply build_raise_first_missing in Hb as (k & Hk & ->)
         end.
  all: first
    [ left; eexists; split; [eassumption|]; split; [reflexivity|];
      split; [reflexivity|]; split; [reflexivity|]; intros x; reflexivity
    | right; left; eexists _, _; split; [reflexivity || eassumption|];
      split; [reflexivity|]; split; [reflexivity|]; split; [reflexivity|];
      split; [cbn; auto | intros x; reflexivity]
    | right; right; eexists _, _; split; [reflexivity|]; split; [reflexivity|];
      split; [reflexivity|]; split;
      [ events_facts2; rewrite Hpf; reflexivity |]; split;
      [ intros x; events_facts2; cbn; rewrite ?orb_false_r; apply Huniq
      | reflexivity ] ].
Qed.

(** The probe of a manager whose primary and replica the library reaches. *)
Lemma test_connections_both (E : Env) (d : Database) (w : World)
    (m r : AsyncEngine) :
  master_engine d = Some m -> replica_engine d = Some r ->
  (forall w, env_checkout E w m = None) ->
  (forall w q, env_execute E w m q = None) ->
  (forall w, env_checkout E w r = None) ->
  (forall w q, env_execute E w r q = None) ->
  _test_connections E (d, w) =
    (Ok tt, (d, {| next_id := next_id w;
                   trace := EvRelease r :: EvLog DEBUG "Replica OK"
                            :: EvExecute r "SELECT 1" true
                            :: EvCheckout r true
                            :: EvRelease m :: EvLog DEBUG "Master OK"
                            :: EvExecute m "SELECT 1" true
                            :: EvCheckout m true :: trace w |})).
Proof.
  intros Hm Hr Hcm Hem Hcr Her. unfold _test_connections. unfold_prims. cbn.
  rewrite Hm, Hcm. cbn. rewrite Hem. cbn. rewrite Hr, Hcr. cbn.
  rewrite Her. reflexivity.
Qed.

(** ** The connection string *)

(** X1: [_build_connection_string] returns a string exactly when the
    configuration has the five keys username, password, host, port and
    database, whatever they hold; otherwise it raises the [KeyError] of
    the first of them that is missing, in that order.  Any other key of
    the configuration is ignored. *)
Theorem build_connection_string_fields (config : gmap string Py.value) :
  ((exists url, _build_connection_string config = Ok url) <->
   forall k, k ∈ required_fields -> is_Some (config !! k)) /\
  (forall e, _build_connection_string config = Raise e <->
             exists k, first_missing config = Some k /\ e = KeyError k) /\
  (forall config' : gmap string Py.value,
     (forall k, k ∈ required_fields -> config' !! k = config !! k) ->
     _build_connection_string config' = _build_connection_string config).
Proof.
  split; [|split].
  - split.
    + intros [url Hurl] k Hk.
      unfold _build_connection_string, getitem in Hurl.
      unfold required_fields in Hk.
      destruct (config !! "username") eqn:?; [|done].
      destruct (config !! "password") eqn:?; [|done].
      destruct (config !! "host") eqn:?; [|done].
      destruct (config !! "port") eqn:?; [|done].
      destruct (config !! "database") eqn:?; [|done].
      set_unfold. naive_solver.
    + intros Hall. apply first_missing_none_build.
      unfold first_missing, required_fields. cbn.
      unfold required_fields in Hall.
      destruct (Hall "username") as [? ->]; [set_solver|].
      destruct (Hall "password") as [? ->]; [set_solver|].
      destruct (Hall "host") as [? ->]; [set_solver|].
      destruct (Hall "port") as [? ->]; [set_solver|].
      destruct (Hall "database") as [? ->]; [set_solver|].
      done.
  - intros e. split; [apply build_raise_first_missing|].
    intros (k & Hk & ->). by apply first_missing_build.
  - intros config' Hsame.
    unfold _build_connection_string, getitem, required_fields in *.
    rewrite !Hsame by set_solver. done.
Qed.

(** The new events of a run whose final trace is written out. *)
Ltac compute_new_events :=
  match goal with
  | |- context [new_events ?w0 {| next_id := ?n; trace := ?t |}] =>
      let p := prefix_of t in
      rewrite (new_events_app w0 {| next_id := n; trace := t |} p eq_refl)
  end.

(** ** Connecting with a replica *)

(** X2: when the replica's configuration passes [all(...)] and has the
    five keys, and the library reaches both backends, [connect] succeeds
    from any state; the manager then holds two different pools, one per
    connection string, [health_check] reports both, a read session is
    bound to the replica's pool and a write session to the primary's. *)
Theorem connect_with_replica (E : Env) (d : Database) (w : World)
    (murl rurl : string) :
  _build_connection_string (master_config d) = Ok murl ->
  _build_connection_string (replica_config d) = Ok rurl ->
  Py.all_values (replica_config d) = true ->
  serves E murl -> serves E rurl ->
  exists d' w' m r,
    connect E (d, w) = (Ok tt, (d', w')) /\
    master_engine d' = Some m /\ replica_engine d' = Some r /\
    m <> r /\ eng_url m = murl /\ eng_url r = rurl /\
    health_check d' = {| status := "healthy"; master := true; replica := true |} /\
    get_session d' "write" =
      Ok {| sess_bind := Some m; sess_expire_on_commit := false |} /\
    get_session d' "read" =
      Ok {| sess_bind := Some r; sess_expire_on_commit := false |}.
Proof.
  intros Hm Hr Hall (Hcm & Hkm & Hem) (Hcr & Hkr & Her).
  unfold connect. unfold_prims. cbn.
  rewrite Hm. cbn. rewrite Hcm. cbn. rewrite Hall. cbn.
  rewrite Hr. cbn. rewrite Hcr. cbn.
  erewrite test_connections_both; [|reflexivity|reflexivity|..].
  - cbn. eexists _, _, _, _. split; [reflexivity|].
    repeat split. intros [=]. lia.
  - intros w0. by apply Hkm.
  - intros w0 q. by apply Hem.
  - intros w0. by apply Hkr.
  - intros w0 q. by apply Her.
Qed.

Lemma connect_with_replica_witness :
  exists d' w' m r,
    connect Scenario.all_up
      (new_Database Scenario.primary_cfg Scenario.replica_cfg, Scenario.world0) =
      (Ok tt, (d', w')) /\
    master_engine d' = Some m /\ replica_engine d' = Some r /\
    m <> r /\ eng_url m = Scenario.primary_url /\ eng_url r = Scenario.replica_url /\
    health_check d' = {| status := "healthy"; master := true; replica := true |} /\
    get_session d' "write" =
      Ok {| sess_bind := Some m; sess_expire_on_commit := false |} /\
    get_session d' "read" =
      Ok {| sess_bind := Some r; sess_expire_on_commit := false |}.
Proof.
  apply (connect_with_replica Scenario.all_up
           (new_Database Scenario.primary_cfg Scenario.replica_cfg)
           Scenario.world0 Scenario.primary_url Scenario.replica_url).
  - vm_compute; reflexivity.
  - vm_compute; reflexivity.
  - vm_compute; reflexivity.
  - repeat split.
  - repeat split.
Defined.

(** X3: a replica that cannot be set up is left out without an error.
    When the replica's configuration passes [all(...)] but lacks a key, or
    the library cannot create its engine, and the library reaches the
    primary, [connect] succeeds from any state with no replica: a warning
    "Replica unavailable" is logged, [health_check] reports no replica and
    a read session is the same as a write session, bound to the primary. *)
Theorem connect_replica_unavailable (E : Env) (d : Database) (w : World)
    (murl : string) :
  _build_connection_string (master_config d) = Ok murl ->
  serves E murl ->
  Py.all_values (replica_config d) = true ->
  ((exists e, _build_connection_string (replica_config d) = Raise e) \/
   (exists rurl msg, _build_connection_string (replica_config d) = Ok rurl /\
      forall w, env_create E w rurl = Some msg)) ->
  exists d' w' m text,
    connect E (d, w) = (Ok tt, (d', w')) /\
    In (EvLog WARNING ("Replica unavailable: " ++ text)) (new_events w w') /\
    master_engine d' = Some m /\ replica_engine d' = None /\
    health_check d' = {| status := "healthy"; master := true; replica := false |} /\
    get_session d' "write" =
      Ok {| sess_bind := Some m; sess_expire_on_commit := false |} /\
    get_session d' "read" = get_session d' "write".
Proof.
  intros Hm (Hcm & Hkm & Hem) Hall Hwhy.
  unfold connect. unfold_prims. cbn.
  rewrite Hm. cbn. rewrite Hcm. cbn. rewrite Hall. cbn.
  destruct Hwhy as [[e He] | (rurl & msg & Hr & Hcr)].
  - rewrite He. cbn.
    erewrite test_connections_primary_only; [|reflexivity|reflexivity|..].
    + cbn. eexists _, _, _, (exn_str e). split; [reflexivity|].
      split; [|by repeat split].
      compute_new_events. cbn. auto 10.
    + intros w0. by apply Hkm.
    + intros w0 q. by apply Hem.
  - rewrite Hr. cbn. rewrite Hcr. cbn.
    erewrite test_connections_primary_only; [|reflexivity|reflexivity|..].
    + cbn. eexists _, _, _, msg. split; [reflexivity|].
      split; [|by repeat split].
      compute_new_events. cbn. auto 12.
    + intros w0. by apply Hkm.
    + intros w0 q. by apply Hem.
Qed.

Lemma connect_replica_unavailable_witness :
  exists d' w' m text,
    connect (create_fails Scenario.replica_url)
      (new_Database Scenario.primary_cfg Scenario.replica_cfg, Scenario.world0) =
      (Ok tt, (d', w')) /\
    In (EvLog WARNING ("Replica unavailable: " ++ text))
       (new_events Scenario.world0 w') /\
    master_engine d' = Some m /\ replica_engine d' = None /\
    health_check d' = {| status := "healthy"; master := true; replica := false |} /\
    get_session d' "write" =
      Ok {| sess_bind := Some m; sess_expire_on_commit := false |} /\
    get_session d' "read" = get_session d' "write".
Proof.
  apply (connect_replica_unavailable (create_fails Scenario.replica_url)
           (new_Database Scenario.primary_cfg Scenario.replica_cfg)
           Scenario.world0 Scenario.primary_url).
  - vm_compute; reflexivity.
  - repeat split.
  - vm_compute; reflexivity.
  - right. exists Scenario.replica_url, "cannot load driver".
    split; [vm_compute; reflexivity | intros w; reflexivity].
Defined.

(** X4: a replica configuration in which some value is empty ([None],
    [""], [0], [False]) is not used at all, even when every key is there:
    [connect] opens at most one pool, the primary's, never creates or
    probes an engine for the replica, and a manager in a reachable state
    has no replica afterwards. *)
Theorem connect_skips_partial_replica (E : Env) (d : Database) (w : World)
    (res : Result unit) (d' : Database) (w' : World) :
  reachable E (d, w) ->
  Py.all_values (replica_config d) = false ->
  connect E (d, w) = (res, (d', w')) ->
  replica_engine d' = None /\
  replica (health_check d') = false /\
  length (opened (new_events w w')) <= 1 /\
  forall p, p ∈ opened (new_events w w') ->
    master_engine d' = Some p /\
    _build_connection_string (master_config d) = Ok (eng_url p).
Proof.
  intros Hreach Hall H. apply reachable_consistent in Hreach as Hc.
  pose proof (cons_replica_cfg _ Hc Hall) as Hnone. cbn in Hnone.
  apply connect_opened in H as (evs & Hevs & _ & Hcases).
  rewrite (new_events_app _ _ _ Hevs). unfold health_check. cbn.
  destruct Hcases as [(-> & -> & _) |
    (m & Hm & _ & _ & Hurl & _ & _ & _ & [[-> Hrep] | (r & _ & _ & _ & Htrue & _)])];
    [| |congruence].
  - rewrite Hnone. do 2 (split; [done|]). split; [cbn; lia|].
    by intros p ?%elem_of_nil.
  - assert (replica_engine d' = None) as ->
      by (destruct Hrep as [? | [_ ->]]; done).
    do 2 (split; [done|]). split; [cbn; lia|].
    by intros p ->%list_elem_of_singleton.
Qed.

Lemma connect_skips_partial_replica_witness :
  let out := connect Scenario.all_up
               (new_Database Scenario.primary_cfg Scenario.empty_password_config,
                Scenario.world0) in
  first_missing Scenario.empty_password_config = None /\
  replica_engine out.2.1 = None /\
  length (opened (new_events Scenario.world0 out.2.2)) <= 1.
Proof.
  intros out.
  assert (out = (out.1, (out.2.1, out.2.2))) as Hrun by (vm_compute; reflexivity).
  destruct (connect_skips_partial_replica Scenario.all_up _ _ _ _ _
              (reach_init Scenario.all_up Scenario.primary_cfg
                 Scenario.empty_password_config default_pool_size
                 default_max_overflow default_pool_timeout default_pool_recycle
                 Scenario.world0)
              ltac:(vm_compute; reflexivity) Hrun)
    as (Hnone & _ & Hlen & _).
  split; [vm_compute; reflexivity|]. split; [exact Hnone | exact Hlen].
Defined.

(** ** Connecting again *)

(** X5: [connect] has no guard against a manager that already holds
    pools.  Whenever it opens a pool, in a reachable state, every pool the
    manager referenced before the call is dropped from [master_engine] and
    [replica_engine] without [dispose()] having been invoked on it. *)
Theorem reconnect_drops_old_pools (E : Env) (d : Database) (w : World)
    (res : Result unit) (d' : Database) (w' : World) (p : AsyncEngine) :
  reachable E (d, w) ->
  connect E (d, w) = (res, (d', w')) ->
  opened (new_events w w') <> [] ->
  master_engine d = Some p \/ replica_engine d = Some p ->
  master_engine d' <> Some p /\
  replica_engine d' <> Some p /\
  (p ∉ opened (new_events w w')) /\
  dispose_invoked p (new_events w w') = false.
Proof.
  intros Hreach H Hopened Hold. apply reachable_consistent in Hreach as Hc.
  assert (eng_id p < next_id w) as Hp.
  { destruct Hold as [Hold | Hold];
      [apply (cons_master_id _ Hc) in Hold | apply (cons_replica_id _ Hc) in Hold];
      exact Hold. }
  pose proof (cons_replica_cfg _ Hc) as Hcfg. cbn in Hcfg.
  pose proof (connect_digest _ _ _ _ _ _ H) as (evs0 & Hevs0 & Hdisp & _).
  apply connect_opened in H as (evs & Hevs & _ & Hcases).
  assert (evs0 = evs) as ->
    by (rewrite Hevs in Hevs0; by apply app_inv_tail in Hevs0).
  rewrite (new_events_app _ _ _ Hevs) in *.
  destruct Hcases as [(Hnil & _) |
    (m & Hm & Hid & _ & _ & _ & _ & _ & Hrep)]; [done|].
  split; [rewrite Hm; intros [= ->]; lia|].
  split; [|split; [|by apply Hdisp]].
  - destruct Hrep as [[_ [-> | [Hfalse ->]]] | (r & _ & Hrid & _ & _ & _ & [-> | ->])];
      try done.
    + rewrite (Hcfg Hfalse). done.
    + intros [= ->]. lia.
  - destruct Hrep as [[-> _] | (r & -> & Hrid & _)].
    + intros ->%list_elem_of_singleton. lia.
    + intros [-> | ->%list_elem_of_singleton]%elem_of_cons; lia.
Qed.

Lemma reconnect_drops_old_pools_witness :
  let out := connect Scenario.all_up Scenario.both_up in
  master_engine out.2.1 <> Some Scenario.primary_pool /\
  replica_engine out.2.1 <> Some Scenario.primary_pool /\
  (Scenario.primary_pool ∉ opened (new_events Scenario.both_up.2 out.2.2)) /\
  dispose_invoked Scenario.primary_pool (new_events Scenario.both_up.2 out.2.2) = false.
Proof.
  intros out.
  assert (connect Scenario.all_up (Scenario.both_up.1, Scenario.both_up.2)
          = (out.1, (out.2.1, out.2.2))) as Hrun by (vm_compute; reflexivity).
  apply (reconnect_drops_old_pools Scenario.all_up _ _ _ _ _ Scenario.primary_pool
           (reachable_after_connect Scenario.all_up _ Scenario.world0
              (reach_init Scenario.all_up Scenario.primary_cfg
                 Scenario.replica_cfg default_pool_size default_max_overflow
                 default_pool_timeout default_pool_recycle Scenario.world0))
           Hrun).
  - vm_compute. discriminate.
  - left. vm_compute; reflexivity.
Defined.

(** ** Health and sessions *)

(** X6: in every reachable state [health_check] and [get_session] agree:
    when the status is "healthy", [get_session] returns a session for every
    kind; and when [get_session] raises, the status is "unhealthy" and the
    error is the [RuntimeError] "Database not connected", never the
    [TypeError] of calling a factory that is still [None]. *)
Theorem health_check_agrees_with_get_session (E : Env) (d : Database) (w : World) :
  reachable E (d, w) ->
  (status (health_check d) = "healthy" ->
   forall kind, exists s, get_session d kind = Ok s) /\
  (forall kind e, get_session d kind = Raise e ->
     status (health_check d) = "unhealthy" /\
     e = RuntimeError "Database not connected").
Proof.
  intros Hreach. apply reachable_consistent in Hreach as Hc.
  pose proof (cons_connected _ Hc) as Hconn. cbn in Hconn.
  unfold health_check, get_session. cbn.
  destruct (_connected d); cbn.
  - destruct (Hconn eq_refl) as [Hw Hr].
    destruct (write_session_factory d); [|done].
    destruct (read_session_factory d); [|done].
    split.
    + intros _ kind. destruct (String.eqb kind "read"); cbn; eauto.
    + intros kind e. by destruct (String.eqb kind "read").
  - split; [done|]. intros kind e [= <-]. done.
Qed.

Lemma health_check_agrees_with_get_session_witness :
  (forall kind, exists s, get_session Scenario.both_up.1 kind = Ok s) /\
  (forall kind e,
     get_session (new_Database Scenario.primary_cfg Scenario.replica_cfg) kind = Raise e ->
     e = RuntimeError "Database not connected").
Proof.
  split.
  - apply (health_check_agrees_with_get_session Scenario.all_up
             Scenario.both_up.1 Scenario.both_up.2
             (reachable_after_connect Scenario.all_up _ Scenario.world0
                (reach_init Scenario.all_up Scenario.primary_cfg
                   Scenario.replica_cfg default_pool_size default_max_overflow
                   default_pool_timeout default_pool_recycle Scenario.world0))).
    vm_compute; reflexivity.
  - intros kind e He.
    apply (health_check_agrees_with_get_session Scenario.all_up _ Scenario.world0
             (reach_init Scenario.all_up Scenario.primary_cfg
                Scenario.replica_cfg default_pool_size default_max_overflow
                default_pool_timeout default_pool_recycle Scenario.world0)
             ) in He as [_ He].
    exact He.
Defined.

(** ** Why [connect] fails *)

(** X7: [connect] raises for three reasons only, all of them about the
    primary: a key of its configuration is missing ([KeyError], nothing
    was opened or used, the manager is unchanged); the library cannot
    create its engine (the library's error, nothing was opened or used,
    the manager is unchanged); or its probe failed (the library's error).
    A failure of the replica never reaches the caller. *)
Theorem connect_failure_causes (E : Env) (d : Database) (w : World)
    (e : Exception) (d' : Database) (w' : World) :
  connect E (d, w) = (Raise e, (d', w')) ->
  (exists k, first_missing (master_config d) = Some k /\ e = KeyError k /\
     d' = d /\ opened (new_events w w') = [] /\
     forall x, touched x (new_events w w') = false) \/
  (exists url msg, _build_connection_string (master_config d) = Ok url /\
     e = LibraryError msg /\ d' = d /\ opened (new_events w w') = [] /\
     In (EvCreate url None) (new_events w w') /\
     forall x, touched x (new_events w w') = false) \/
  (exists m msg, master_engine d' = Some m /\ eng_id m = next_id w /\
     e = LibraryError msg /\ probe_failed m (new_events w w') = true).
Proof.
  intros H. apply connect_causes in H as (evs & Hevs & Hcases).
  rewrite (new_events_app _ _ _ Hevs).
  destruct Hcases as [Hkey | [Hcreate | (m & msg & Hm & Hid & -> & Hpf & _)]];
    [by left | by right; left |].
  right; right. by exists m, msg.
Qed.

Lemma connect_failure_causes_witness :
  let out := connect (create_fails Scenario.primary_url)
               (new_Database Scenario.primary_cfg Scenario.replica_cfg,
                Scenario.world0) in
  out.1 = Raise (LibraryError "cannot load driver") /\
  out.2.1 = new_Database Scenario.primary_cfg Scenario.replica_cfg /\
  opened (new_events Scenario.world0 out.2.2) = [].
Proof.
  intros out.
  assert (out = (Raise (LibraryError "cannot load driver"), (out.2.1, out.2.2)))
    as Hrun by (vm_compute; reflexivity).
  split; [vm_compute; reflexivity|].
  destruct (connect_failure_causes _ _ _ _ _ _ Hrun)
    as [(k & Hk & _) | [(url & msg & _ & _ & Hd & Hopen & _) |
                        (m & msg & Hm & _)]].
  - exfalso. vm_compute in Hk. discriminate Hk.
  - split; [exact Hd | exact Hopen].
  - exfalso. vm_compute in Hm. discriminate Hm.
Defined.

(** X8: when the primary's probe fails, the replica is not probed: a
    pool that the failed [connect] opened for the replica was never used
    (no checkout, no query) and is still referenced as [replica_engine]. *)
Theorem primary_probe_failure_skips_replica (E : Env) (d : Database) (w : World)
    (e : Exception) (d' : Database) (w' : World) (r : AsyncEngine) :
  connect E (d, w) = (Raise e, (d', w')) ->
  r ∈ opened (new_events w w') ->
  master_engine d' <> Some r ->
  touched r (new_events w w') = false /\
  replica_engine d' = Some r /\
  exists m, master_engine d' = Some m /\ probe_failed m (new_events w w') = true.
Proof.
  intros H Hr Hnot.
  pose proof (connect_digest _ _ _ _ _ _ H) as (evs0 & Hevs0 & _ & _ & _ & Hfail).
  apply connect_causes in H as (evs & Hevs & Hcases).
  assert (evs0 = evs) as ->
    by (rewrite Hevs in Hevs0; by apply app_inv_tail in Hevs0).
  rewrite (new_events_app _ _ _ Hevs) in *.
  destruct (Hfail e eq_refl) as (_ & _ & Hrefs).
  destruct Hcases as [(k & _ & _ & _ & Hnil & _) |
                      [(url & msg & _ & _ & _ & Hnil & _) |
                       (m & msg & Hm & _ & _ & Hpf & Huniq & _)]];
    [by rewrite Hnil in Hr; apply elem_of_nil in Hr
    |by rewrite Hnil in Hr; apply elem_of_nil in Hr|].
  split; [|split; [|by exists m]].
  - destruct (touched r evs) eqn:Ht; [|done].
    apply Huniq in Ht as ->. done.
  - by destruct (Hrefs r Hr).
Qed.

Lemma primary_probe_failure_skips_replica_witness :
  let out := connect (Scenario.unreachable Scenario.primary_url)
               (new_Database Scenario.primary_cfg Scenario.replica_cfg,
                Scenario.world0) in
  touched Scenario.replica_pool (new_events Scenario.world0 out.2.2) = false /\
  replica_engine out.2.1 = Some Scenario.replica_pool.
Proof.
  intros out.
  assert (out = (Raise (LibraryError "connection refused"), (out.2.1, out.2.2)))
    as Hrun by (vm_compute; reflexivity).
  destruct (primary_probe_failure_skips_replica _ _ _ _ _ _
              Scenario.replica_pool Hrun)
    as (Ht & Hr & _).
  - vm_compute. apply list_elem_of_here.
  - vm_compute. discriminate.
  - split; [exact Ht | exact Hr].
Defined.

(** ** Connections and pools *)

(** X9: the liveness probe gives back every connection it checks out,
    also when the query raises: among the events of [_test_connections],
    and so among those of [connect], the connections given back are those
    checked out, pool by pool and in the same order. *)
Theorem probe_releases_connections (E : Env) (d : Database) (w : World) :
  released (new_events w (_test_connections E (d, w)).2.2) =
    checked_out (new_events w (_test_connections E (d, w)).2.2) /\
  released (new_events w (connect E (d, w)).2.2) =
    checked_out (new_events w (connect E (d, w)).2.2).
Proof.
  split.
  - destruct (_test_connections E (d, w)) as [res [d' w']] eqn:H.
    apply test_connections_pools in H as (evs & Hevs & Hrel & _).
    cbn. by rewrite (new_events_app _ _ _ Hevs).
  - destruct (connect E (d, w)) as [res [d' w']] eqn:H.
    apply connect_opened in H as (evs & Hevs & Hrel & _).
    cbn. by rewrite (new_events_app _ _ _ Hevs).
Qed.

(** X10: no method changes what the manager was constructed with: after
    [connect], [disconnect] and the probe, however they end, the two
    configurations and the four pool parameters are the same. *)
Theorem methods_keep_settings (E : Env) (d : Database) (w : World) :
  same_settings d (connect E (d, w)).2.1 /\
  same_settings d (disconnect E (d, w)).2.1 /\
  same_settings d (_test_connections E (d, w)).2.1.
Proof.
  split; [|split].
  - destruct (connect E (d, w)) as [res [d' w']] eqn:H.
    apply connect_opened in H as (evs & _ & _ & Hcases). cbn.
    destruct Hcases as [(_ & -> & _) | (m & _ & _ & _ & _ & _ & _ & Hsame & _)];
      [done | exact Hsame].
  - destruct (disconnect E (d, w)) as [res [d' w']] eqn:H.
    apply disconnect_digest in H as (evs & _ & _ & _ & Hcases). cbn.
    by destruct Hcases as [(_ & -> & _) | (msg & p & _ & -> & _)].
  - destruct (_test_connections E (d, w)) as [res [d' w']] eqn:H.
    apply test_connections_full in H as (evs & _ & _ & _ & _ & _ & Hraise & Hok).
    cbn. destruct res as [[]|e].
    + by destruct (Hok eq_refl) as [-> | ->].
    + by destruct (Hraise e eq_refl) as [-> _].
Qed.

(** X11: the pools [connect] opens are the configured ones: at most two,
    the primary's first; each is created on the connection string of the
    primary's or of the replica's configuration, with the manager's four
    pool parameters and with echo off, the same for both backends. *)
Theorem connect_opens_configured_pools (E : Env) (d : Database) (w : World)
    (res : Result unit) (d' : Database) (w' : World) :
  connect E (d, w) = (res, (d', w')) ->
  length (opened (new_events w w')) <= 2 /\
  (forall m, last (opened (new_events w w')) = Some m ->
     _build_connection_string (master_config d) = Ok (eng_url m) /\
     master_engine d' = Some m) /\
  forall p, p ∈ opened (new_events w w') ->
    eng_options p =
      {| opt_pool_size := pool_size d; opt_max_overflow := max_overflow d;
         opt_pool_timeout := pool_timeout d; opt_pool_recycle := pool_recycle d;
         opt_echo := false |} /\
    (_build_connection_string (master_config d) = Ok (eng_url p) \/
     _build_connection_string (replica_config d) = Ok (eng_url p)).
Proof.
  intros H. apply connect_opened in H as (evs & Hevs & _ & Hcases).
  rewrite (new_events_app _ _ _ Hevs).
  destruct Hcases as [(-> & _) |
    (m & Hm & _ & Hom & Hum & _ & _ & _ &
     [[-> _] | (r & -> & _ & Hor & _ & Hur & _)])].
  - split; [cbn; lia|]. split; [done|]. by intros p ?%elem_of_nil.
  - split; [cbn; lia|]. split; [by intros ? [= <-]|].
    intros p ->%list_elem_of_singleton. auto.
  - split; [cbn; lia|]. split; [by intros ? [= <-]|].
    intros p [-> | ->%list_elem_of_singleton]%elem_of_cons; auto.
Qed.

Lemma connect_opens_configured_pools_witness :
  opened (new_events Scenario.world0 Scenario.both_up.2) =
    [Scenario.replica_pool; Scenario.primary_pool] /\
  forall p, p ∈ opened (new_events Scenario.world0 Scenario.both_up.2) ->
    eng_options p =
      {| opt_pool_size := 10; opt_max_overflow := 20;
         opt_pool_timeout := 30; opt_pool_recycle := 3600;
         opt_echo := false |}.
Proof.
  split; [vm_compute; reflexivity|].
  intros p Hp.
  assert (connect Scenario.all_up
            (new_Database Scenario.primary_cfg Scenario.replica_cfg, Scenario.world0)
          = (Ok tt, (Scenario.both_up.1, Scenario.both_up.2)))
    as Hrun by (vm_compute; reflexivity).
  destruct (connect_opens_configured_pools _ _ _ _ _ _ Hrun) as (_ & _ & Hall).
  destruct (Hall p Hp) as [Hopt _]. exact Hopt.
Defined.

(** X12: a [connect] that fails at the primary's probe has already
    replaced the manager's primary by the pool whose probe failed and
    bound the write factory to it, and it leaves the connected flag as it
    was.  So when the manager was connected before, it still reports
    "healthy" and hands out write sessions bound to that pool. *)
Theorem failed_connect_rebinds_factories (E : Env) (d : Database) (w : World)
    (e : Exception) (d' : Database) (w' : World) :
  connect E (d, w) = (Raise e, (d', w')) ->
  opened (new_events w w') <> [] ->
  exists m, master_engine d' = Some m /\ eng_id m = next_id w /\
    probe_failed m (new_events w w') = true /\
    write_session_factory d' = Some (make_sessionmaker (Some m)) /\
    _connected d' = _connected d /\
    (_connected d = true ->
     status (health_check d') = "healthy" /\
     get_session d' "write" =
       Ok {| sess_bind := Some m; sess_expire_on_commit := false |}).
Proof.
  intros H Hopened.
  pose proof (connect_opened _ _ _ _ _ _ H) as (evs0 & Hevs0 & _ & Hbound).
  apply connect_causes in H as (evs & Hevs & Hcases).
  assert (evs0 = evs) as ->
    by (rewrite Hevs in Hevs0; by apply app_inv_tail in Hevs0).
  rewrite (new_events_app _ _ _ Hevs) in *.
  destruct Hcases as [(k & _ & _ & _ & Hnil & _) |
                      [(url & msg & _ & _ & _ & Hnil & _) |
                       (m & msg & Hm & Hid & _ & Hpf & _ & Hflag)]];
    [done | done |].
  destruct Hbound as [(Hnil & _) | (m' & Hm' & _ & _ & _ & Hw & _)]; [done|].
  assert (m' = m) as -> by congruence.
  exists m. do 5 (split; [done|]).
  intros Hd. unfold health_check, get_session. cbn.
  rewrite Hflag, Hd, Hw. done.
Qed.

Lemma failed_connect_rebinds_factories_witness :
  let out := connect (Scenario.unreachable Scenario.primary_url) Scenario.both_up in
  exists m, master_engine out.2.1 = Some m /\
    m <> Scenario.primary_pool /\
    probe_failed m (new_events Scenario.both_up.2 out.2.2) = true /\
    status (health_check out.2.1) = "healthy" /\
    get_session out.2.1 "write" =
      Ok {| sess_bind := Some m; sess_expire_on_commit := false |}.
Proof.
  intros out.
  assert (connect (Scenario.unreachable Scenario.primary_url)
            (Scenario.both_up.1, Scenario.both_up.2)
          = (Raise (LibraryError "connection refused"), (out.2.1, out.2.2)))
    as Hrun by (vm_compute; reflexivity).
  destruct (failed_connect_rebinds_factories _ _ _ _ _ _ Hrun)
    as (m & Hm & Hid & Hpf & _ & _ & Hconn).
  - vm_compute. discriminate.
  - destruct (Hconn ltac:(vm_compute; reflexivity)) as [Hhealth Hsession].
    exists m. split; [exact Hm|]. split.
    + intros ->. vm_compute in Hid. discriminate Hid.
    + split; [exact Hpf|]. split; [exact Hhealth | exact Hsession].
Defined.

(** ** What [disconnect] touches *)

(** X13: [disconnect] works on the pools the manager references and on
    nothing else: it opens no pool, checks out no connection and sends no
    query, and invokes [dispose()] only on [master_engine] and
    [replica_engine].  On a manager that holds no engine it calls nothing
    and ends normally. *)
Theorem disconnect_touches_referenced_pools (E : Env) (d : Database) (w : World)
    (res : Result unit) (d' : Database) (w' : World) :
  disconnect E (d, w) = (res, (d', w')) ->
  opened (new_events w w') = [] /\
  (forall x, touched x (new_events w w') = false) /\
  (forall p, dispose_invoked p (new_events w w') = true ->
     master_engine d = Some p \/ replica_engine d = Some p) /\
  (master_engine d = None -> replica_engine d = None ->
   res = Ok tt /\ forall p, dispose_invoked p (new_events w w') = false).
Proof.
  intros H. unfold disconnect in H. unfold_prims. run_paths.
  all: compute_new_events.
  all: split; [reflexivity|]; split; [intros x; reflexivity|].
  all: repeat match goal with
         | H : replica_engine _ = _ |- _ => rewrite H; clear H
         end.
  all: split;
    [|intros; first [done | split; [reflexivity | intros p; reflexivity]]].
  all: intros p; rewrite !dispose_invoked_cons, dispose_invoked_nil; naive_solver.
Qed.

Lemma disconnect_touches_referenced_pools_witness :
  let fresh := new_Database Scenario.primary_cfg Scenario.replica_cfg in
  let out := disconnect (Scenario.dispose_fails Scenario.primary_url)
               (fresh, Scenario.world0) in
  out.1 = Ok tt /\
  forall p, dispose_invoked p (new_events Scenario.world0 out.2.2) = false.
Proof.
  intros fresh out.
  assert (disconnect (Scenario.dispose_fails Scenario.primary_url)
            (fresh, Scenario.world0) = (out.1, (out.2.1, out.2.2)))
    as Hrun by (vm_compute; reflexivity).
  destruct (disconnect_touches_referenced_pools _ _ _ _ _ _ Hrun)
    as (_ & _ & _ & Hfresh).
  apply Hfresh; reflexivity.
Defined.

(** ** Sessions are bound *)

(** X14: in every reachable state a session that [get_session] returns is
    bound to a pool, never unbound, and was made with expire-on-commit
    off; the same holds for what the two factories produce. *)
Theorem sessions_are_bound (E : Env) (d : Database) (w : World) :
  reachable E (d, w) ->
  (forall f, write_session_factory d = Some f \/ read_session_factory d = Some f ->
     is_set (sm_bind f) = true /\ sm_expire_on_commit f = false) /\
  (forall kind s, get_session d kind = Ok s ->
     is_set (sess_bind s) = true /\ sess_expire_on_commit s = false).
Proof.
  intros Hreach.
  assert (forall f, write_session_factory d = Some f \/ read_session_factory d = Some f ->
            is_set (sm_bind f) = true /\ sm_expire_on_commit f = false) as Hbound.
  { remember (d, w) as st eqn:Hst. revert d w Hst.
    induction Hreach as [mc rc ps mo pt pr w0 | st Hreach IH | st Hreach IH | st Hreach IH];
      intros d w Hst f Hf.
    - injection Hst as <- <-. by destruct Hf.
    - destruct st as [d0 w0]. specialize (IH d0 w0 eq_refl).
      destruct (connect E (d0, w0)) as [res [d1 w1]] eqn:H.
      injection Hst as <- <-.
      apply connect_opened in H as (evs & _ & _ & Hcases).
      destruct Hcases as [(_ & -> & _) | (m & _ & _ & _ & _ & Hw & (rd & Hr) & _)];
        [by apply IH|].
      rewrite Hw, Hr in Hf. by destruct Hf as [[= <-] | [= <-]].
    - destruct st as [d0 w0]. specialize (IH d0 w0 eq_refl).
      destruct (disconnect E (d0, w0)) as [res [d1 w1]] eqn:H.
      injection Hst as <- <-.
      apply disconnect_digest in H as (evs & _ & _ & _ & Hcases).
      destruct Hcases as [(_ & -> & _) | (msg & p & _ & -> & _)]; by apply IH.
    - destruct st as [d0 w0]. specialize (IH d0 w0 eq_refl).
      destruct (_test_connections E (d0, w0)) as [res [d1 w1]] eqn:H.
      injection Hst as <- <-.
      apply test_connections_full in H as (evs & _ & _ & _ & _ & _ & Hraise & Hok).
      destruct res as [[]|e].
      + destruct (Hok eq_refl) as [-> | ->]; by apply IH.
      + destruct (Hraise e eq_refl) as [-> _]. by apply IH. }
  split; [exact Hbound|].
  intros kind s. unfold get_session.
  destruct (_connected d); cbn; [|done].
  destruct (String.eqb kind "read").
  - destruct (read_session_factory d) as [f|] eqn:Hf; cbn; [|done].
    intros [= <-]. cbn. apply Hbound. by right.
  - destruct (write_session_factory d) as [f|] eqn:Hf; cbn; [|done].
    intros [= <-]. cbn. apply Hbound. by left.
Qed.

Lemma sessions_are_bound_witness :
  exists s, get_session Scenario.both_up.1 "read" = Ok s /\
    is_set (sess_bind s) = true /\ sess_expire_on_commit s = false.
Proof.
  exists {| sess_bind := Some Scenario.replica_pool; sess_expire_on_commit := false |}.
  assert (get_session Scenario.both_up.1 "read" =
          Ok {| sess_bind := Some Scenario.replica_pool;
                sess_expire_on_commit := false |})
    as Hs by (vm_compute; reflexivity).
  split; [exact Hs|].
  destruct (sessions_are_bound Scenario.all_up Scenario.both_up.1 Scenario.both_up.2
              (reachable_after_connect Scenario.all_up _ Scenario.world0
                 (reach_init Scenario.all_up Scenario.primary_cfg
                    Scenario.replica_cfg default_pool_size default_max_overflow
                    default_pool_timeout default_pool_recycle Scenario.world0)))
    as [_ Hsessions].
  exact (Hsessions "read" _ Hs).
Defined.
